(** * offlineimap/utils/distro_utils.py: location of the CA bundle

    A shallow embedding of the three functions of the module
    ([get_os_name], [get_os_sslcertfile_searchpath], [get_os_sslcertfile])
    and of the module-level dictionary [__DEF_OS_LOCATIONS], followed by
    the properties of the specification that hold, or fail, on them.

    Modelling conventions.
    - A Python [str] is the [string] of the bytes of its UTF-8 encoding:
      concatenation, emptiness, equality and [startswith] are then the
      ones of [string].  [str.lower] and [str.split] depend on the
      Unicode tables of the interpreter; they are fields of the host and
      no property below assumes anything about them unless it says so.
    - Python objects that may sit in a candidate list are [pyobj]s, so
      that the [assert isinstance(l_file, str)] of the prober has content.
    - An exception is a [Raise] result; state changes made before the
      exception are kept, as in Python.
    - The module dictionary is the state that the functions thread: the
      local variable [location] of the resolver is either the very list
      stored in the dictionary (an alias) or a fresh local list.
    - The host (interpreter, platform name, distribution facilities,
      environment variables, filesystem, ssl module) is a record [Host]. *)

From Stdlib Require Import Ascii String ZArith Lia.
From stdpp Require Import base option list strings gmap fin_maps.

(** ** Python values and results *)

Inductive pyobj : Type :=
  | PStr (s : string)
  | PNone
  | PInt (z : Z).

Global Instance pyobj_eq_dec : EqDecision pyobj.
Proof. solve_decision. Defined.

(** [isinstance(v, str)] *)
Definition isinstance_str (v : pyobj) : bool :=
  match v with PStr _ => true | _ => false end.

Inductive exn : Type :=
  | ImportError
  | IndexError
  | AssertionError.

Inductive result (A : Type) : Type :=
  | Ok (a : A)
  | Raise (e : exn).
Arguments Ok {A} a.
Arguments Raise {A} e.

Global Instance result_ret : MRet result := λ A a, Ok a.
Global Instance result_bind : MBind result := λ A B f m,
  match m with Ok a => f a | Raise e => Raise e end.

(** ** Strings: [str.startswith], truth value, formatting *)

Module PyStr.

(** [s.startswith(p)] *)
Definition startswith (s p : string) : bool := String.prefix p s.

(** Truth value of a string: non-empty. *)
Definition truthy (s : string) : bool :=
  match s with EmptyString => false | _ => true end.

(** ["-%s" % t] *)
Definition dash_fmt (t : string) : string := "-" +:+ t.

End PyStr.

(** ** [str.lower] and [str.split] on ASCII text

    What the two methods do on a string of ASCII characters.  The example
    hosts use them as their interpreter, and the properties that speak of
    ASCII names assume that the interpreter of the host agrees with them
    on ASCII strings; on other strings they say nothing about Python. *)

Module AsciiText.

(** [c.lower()] on one ASCII character. *)
Definition lower_ascii (c : ascii) : ascii :=
  let n := nat_of_ascii c in
  if (65 <=? n)%nat && (n <=? 90)%nat then ascii_of_nat (n + 32) else c.

Fixpoint lower (s : string) : string :=
  match s with
  | EmptyString => EmptyString
  | String c r => String (lower_ascii c) (lower r)
  end.

(** The ASCII characters for which [str.isspace] holds: TAB, LF, VT, FF,
    CR, the four separators FS, GS, RS, US, and the space. *)
Definition isspace (c : ascii) : bool :=
  let n := nat_of_ascii c in
  ((9 <=? n)%nat && (n <=? 13)%nat) || ((28 <=? n)%nat && (n <=? 32)%nat).

(** [s.split()] with no separator: the maximal runs of non-whitespace
    characters, in order.  [cur] is the token being read, if any. *)
Fixpoint split_go (cur : option string) (s : string) : list string :=
  match s with
  | EmptyString => match cur with Some w => [w] | None => [] end
  | String c r =>
      if isspace c then
        match cur with
        | Some w => w :: split_go None r
        | None => split_go None r
        end
      else
        split_go (Some (default EmptyString cur +:+ String c EmptyString)) r
  end.

Definition split (s : string) : list string := split_go None s.

(** The code point of [c] is below 128. *)
Definition is_ascii_char (c : ascii) : bool := (nat_of_ascii c <? 128)%nat.

End AsciiText.

(** [l[0]] on a list: [IndexError] when the list is empty. *)
Definition index0 {A} (l : list A) : result A :=
  match l with
  | x :: _ => Ok x
  | [] => Raise IndexError
  end.

(** ** The host *)

(** What [lstat] sees at a path. *)
Inductive node : Type :=
  | RegFile
  | Dir
  | Symlink (target : string)
  | Special.

(** [ssl.DefaultVerifyPaths], the fields the module reads. *)
Record DefaultVerifyPaths : Type := {
  openssl_cafile_env : string;
  cafile : option string;
  openssl_cafile : option string
}.

(** What [import ssl] followed by [ssl.get_default_verify_paths()] gives. *)
Inductive ssl_state : Type :=
  (** [import ssl] raises [ImportError]: Python was built without it. *)
  | SslMissing
  (** the module has no [get_default_verify_paths]: [AttributeError] *)
  | SslNoDefaultVerifyPaths
  (** the call returns the paths *)
  | SslDefaultVerifyPaths (verify_paths : DefaultVerifyPaths).

Record Host : Type := {
  (** [s.lower()], as the interpreter of the host computes it *)
  str_lower : string → string;
  (** [s.split()], as the interpreter of the host computes it *)
  str_split : string → list string;
  (** [platform.system()] *)
  platform_system : string;
  (** [platform.linux_distribution()[0]]; [None] when the name cannot be
      imported from [platform] (Python 3.8 and later). *)
  platform_linux_distribution : option string;
  (** [distro.linux_distribution()[0]]; [None] when the import fails. *)
  distro_linux_distribution : option string;
  (** [os.environ] *)
  environ : gmap string string;
  (** the filesystem name space: path to what is there, links unfollowed *)
  fs : gmap string node;
  (** the [ssl] module of the interpreter *)
  ssl_module : ssl_state
}.

(** [import ssl] succeeds. *)
Definition ssl_importable (h : Host) : bool :=
  match ssl_module h with SslMissing => false | _ => true end.

(** The value of [ssl.get_default_verify_paths()], when the module is
    there and has the function. *)
Definition ssl_get_default_verify_paths (h : Host) : option DefaultVerifyPaths :=
  match ssl_module h with
  | SslDefaultVerifyPaths verify_paths => Some verify_paths
  | _ => None
  end.

(** [os.getenv(name)] *)
Definition os_getenv (h : Host) (name : string) : option string :=
  environ h !! name.

Module OsPath.

(** Number of symbolic links [stat] follows before failing with ELOOP. *)
Definition SYMLOOP_MAX : nat := 40.

Definition lstat (h : Host) (p : string) : option node := fs h !! p.

(** [stat]: follow symbolic links; a dangling link or a loop fails.
    Link targets are taken as absolute, normalised paths. *)
Fixpoint follow (h : Host) (fuel : nat) (p : string) : option node :=
  match fs h !! p with
  | Some (Symlink t) =>
      match fuel with
      | O => None
      | S f => follow h f t
      end
  | r => r
  end.

Definition stat (h : Host) (p : string) : option node :=
  follow h SYMLOOP_MAX p.

(** [os.path.exists(p)]: [stat] succeeds. *)
Definition exists_ (h : Host) (p : string) : bool :=
  match stat h p with Some _ => true | None => false end.

(** [os.path.isfile(p)]: [stat] succeeds on a regular file. *)
Definition isfile (h : Host) (p : string) : bool :=
  match stat h p with Some RegFile => true | _ => false end.

(** [os.path.islink(p)]: [lstat] succeeds on a symbolic link. *)
Definition islink (h : Host) (p : string) : bool :=
  match lstat h p with Some (Symlink _) => true | _ => false end.

End OsPath.

(** ** [get_os_name] *)

(** [try: from platform import linux_distribution
     except ImportError: from distro import linux_distribution],
    then [linux_distribution()[0]]. *)
Definition import_linux_distribution (h : Host) : result string :=
  match platform_linux_distribution h with
  | Some d => Ok d
  | None =>
      match distro_linux_distribution h with
      | Some d => Ok d
      | None => Raise ImportError
      end
  end.

Definition ARCH_RELEASE : string := "/etc/arch-release".

Definition get_os_name (h : Host) : result string :=
  let os_name := str_lower h (platform_system h) in
  if PyStr.startswith os_name "linux" then
    distro_name ← import_linux_distribution h;
    os_name ←
      (if PyStr.truthy distro_name then
         tok ← index0 (str_split h distro_name);
         mret (os_name +:+ PyStr.dash_fmt (str_lower h tok))
       else mret os_name);
    let os_name :=
      if OsPath.exists_ h ARCH_RELEASE then "linux-arch" else os_name in
    mret os_name
  else mret os_name.

(** ** The module dictionary and the state monad *)

(** The dictionary maps an OS identity to its list of bundle paths.  The
    lists are Python list objects, hence mutable: the dictionary is the
    state the functions below run in. *)
Definition __DEF_OS_LOCATIONS : gmap string (list pyobj) :=
  list_to_map [
    ("freebsd", [PStr "/usr/local/share/certs/ca-root-nss.crt"]);
    ("openbsd", [PStr "/etc/ssl/cert.pem"]);
    ("dragonfly", [PStr "/etc/ssl/cert.pem"]);
    ("darwin", [PStr "/opt/local/share/curl/curl-ca-bundle.crt";
                PStr "/usr/local/etc/openssl/cert.pem";
                PStr "/opt/homebrew/etc/ca-certificates/cert.pem"]);
    ("linux-ubuntu", [PStr "/etc/ssl/certs/ca-certificates.crt"]);
    ("linux-debian", [PStr "/etc/ssl/certs/ca-certificates.crt"]);
    ("linux-gentoo", [PStr "/etc/ssl/certs/ca-certificates.crt"]);
    ("linux-fedora", [PStr "/etc/pki/tls/certs/ca-bundle.crt"]);
    ("linux-redhat", [PStr "/etc/pki/tls/certs/ca-bundle.crt"]);
    ("linux-suse", [PStr "/etc/ssl/ca-bundle.pem"]);
    ("linux-opensuse", [PStr "/etc/ssl/ca-bundle.pem"]);
    ("linux-arch", [PStr "/etc/ssl/certs/ca-certificates.crt"])
  ].

(** A computation over the dictionary that may raise. *)
Definition M (A : Type) : Type :=
  gmap string (list pyobj) → result A * gmap string (list pyobj).

Global Instance M_ret : MRet M := λ A a t, (Ok a, t).
Global Instance M_bind : MBind M := λ A B f m t,
  match m t with
  | (Ok a, t') => f a t'
  | (Raise e, t') => (Raise e, t')
  end.

Definition lift {A} (r : result A) : M A := λ t, (r, t).

(** What the variable [location] is bound to: the list object stored in
    the dictionary under [k], or a list of its own. *)
Inductive lref : Type :=
  | Alias (k : string)
  | Local (l : list pyobj).

(** [__DEF_OS_LOCATIONS.get(k, [])]: the stored object itself when the
    key is there, a new empty list otherwise. *)
Definition dict_get (k : string) : M lref := λ t,
  match t !! k with
  | Some _ => (Ok (Alias k), t)
  | None => (Ok (Local []), t)
  end.

(** The contents of the list [r] refers to. *)
Definition deref (r : lref) : M (list pyobj) := λ t,
  match r with
  | Alias k => (Ok (default [] (t !! k)), t)
  | Local l => (Ok l, t)
  end.

(** [r += xs] on a list: extends the object in place. *)
Definition iadd (r : lref) (xs : list pyobj) : M lref := λ t,
  match r with
  | Alias k => (Ok r, alter (λ l, l ++ xs) k t)
  | Local l => (Ok (Local (l ++ xs)), t)
  end.

(** [if v is not None: r += [v]] *)
Definition iadd_if_not_none (r : lref) (v : option string) : M lref :=
  match v with
  | Some s => iadd r [PStr s]
  | None => mret r
  end.

(** The [finally] block and the [return location] behind it.  [pending]
    is the exception the [try] statement left uncaught, if any: the
    [return None] inside [finally] discards it, otherwise it goes on to
    the caller. *)
Definition finally_return (location : lref) (pending : option exn)
  : M (option (list pyobj)) :=
  l ← deref location;
  if (length l =? 0)%nat then mret None
  else
    match pending with
    | None => mret (Some l)
    | Some e => lift (Raise e)
    end.

(** ** [get_os_sslcertfile_searchpath] *)

Definition get_os_sslcertfile_searchpath (h : Host) : M (option (list pyobj)) :=
  os_name ← lift (get_os_name h);
  location ← dict_get os_name;
  match ssl_module h with
  | SslDefaultVerifyPaths verify_paths =>
      let cafile_by_envvar := os_getenv h (openssl_cafile_env verify_paths) in
      location ← iadd_if_not_none location cafile_by_envvar;
      let cafile_resolved := cafile verify_paths in
      location ← iadd_if_not_none location cafile_resolved;
      let cafile_hardcoded := openssl_cafile verify_paths in
      location ← iadd_if_not_none location cafile_hardcoded;
      finally_return location None
  | SslNoDefaultVerifyPaths =>
      (* except AttributeError: pass *)
      finally_return location None
  | SslMissing =>
      (* the ImportError of [import ssl] is not caught *)
      finally_return location (Some ImportError)
  end.

(** ** [get_os_sslcertfile] *)

(** The test of the loop body. *)
Definition usable (h : Host) (l_file : string) : bool :=
  OsPath.exists_ h l_file && (OsPath.isfile h l_file || OsPath.islink h l_file).

(** The [for] loop over the candidates, assertions enabled.  The branch
    on the constructor is [assert isinstance(l_file, str)]: only a [PStr]
    gets past it. *)
Fixpoint probe (h : Host) (location : list pyobj) : result (option string) :=
  match location with
  | [] => Ok None
  | l_file :: rest =>
      match l_file with
      | PStr s => if usable h s then Ok (Some s) else probe h rest
      | _ => Raise AssertionError
      end
  end.

Definition get_os_sslcertfile (h : Host) : M (option string) :=
  location ← get_os_sslcertfile_searchpath h;
  match location with
  | None => mret None
  | Some l => lift (probe h l)
  end.

(** ** Auxiliary definitions for the statements *)

(** The list [[v]] when [v is not None], the empty list otherwise. *)
Definition opt_list (o : option string) : list pyobj :=
  match o with Some s => [PStr s] | None => [] end.

(** The paths contributed by the ssl introspection, in append order. *)
Definition dynamic_paths (h : Host) : list pyobj :=
  match ssl_get_default_verify_paths h with
  | Some vp =>
      opt_list (os_getenv h (openssl_cafile_env vp)) ++
      opt_list (cafile vp) ++ opt_list (openssl_cafile vp)
  | None => []
  end.

(** The value of the [finally] block and the final [return]. *)
Definition none_if_empty (l : list pyobj) : option (list pyobj) :=
  match l with [] => None | _ => Some l end.

(** The same with an exception possibly pending: the outcome of the call
    for the list [l] that [location] holds at the end. *)
Definition finally_value (l : list pyobj) (pending : option exn)
  : result (option (list pyobj)) :=
  match l with
  | [] => Ok None
  | _ => match pending with None => Ok (Some l) | Some e => Raise e end
  end.

(** The dictionary after a sequence of calls of the resolver, one per
    host state in [hs]; a call that raises leaves what it had done. *)
Fixpoint after_calls (hs : list Host) (t : gmap string (list pyobj))
  : gmap string (list pyobj) :=
  match hs with
  | [] => t
  | h :: rest => after_calls rest (get_os_sslcertfile_searchpath h t).2
  end.

(** Every character of [s] satisfies [P]. *)
Fixpoint all_ascii (P : ascii → bool) (s : string) : bool :=
  match s with
  | EmptyString => true
  | String c r => P c && all_ascii P r
  end.

(** [c] is not an ASCII whitespace character. *)
Definition nonspace (c : ascii) : bool := negb (AsciiText.isspace c).

(** [s] is ASCII text. *)
Definition is_ascii (s : string) : bool := all_ascii AsciiText.is_ascii_char s.

(** On ASCII text the interpreter of the host lowercases and splits as
    Python does. *)
Definition ascii_interpreter (h : Host) : Prop :=
  ∀ s, is_ascii s = true →
       str_lower h s = AsciiText.lower s ∧ str_split h s = AsciiText.split s.

(** An entry the loop of the prober skips: a string that fails the test. *)
Definition skipped (h : Host) (x : pyobj) : Prop :=
  ∃ s, x = PStr s ∧ usable h s = false.

(** Keep the first occurrence of every element. *)
Fixpoint dedup_first (l : list pyobj) : list pyobj :=
  match l with
  | [] => []
  | x :: r => x :: filter (λ y, y ≠ x) (dedup_first r)
  end.

(** ** Hosts used in the examples *)

Definition ca_certificates : pyobj := PStr "/etc/ssl/certs/ca-certificates.crt".
Definition ssl_cert_pem : pyobj := PStr "/usr/lib/ssl/cert.pem".

Definition ubuntu_verify_paths : DefaultVerifyPaths := {|
  openssl_cafile_env := "SSL_CERT_FILE";
  cafile := Some "/usr/lib/ssl/cert.pem";
  openssl_cafile := Some "/usr/lib/ssl/cert.pem"
|}.

Definition ubuntu_host : Host := {|
  str_lower := AsciiText.lower;
  str_split := AsciiText.split;
  platform_system := "Linux";
  platform_linux_distribution := None;
  distro_linux_distribution := Some "Ubuntu 22.04";
  environ := ∅;
  fs := {[ "/etc/ssl/certs/ca-certificates.crt" := RegFile ]};
  ssl_module := SslDefaultVerifyPaths ubuntu_verify_paths
|}.

(** A host of an OS the dictionary does not know, with the variable
    named by the ssl introspection set to the empty string. *)
Definition empty_envvar_host : Host := {|
  str_lower := AsciiText.lower;
  str_split := AsciiText.split;
  platform_system := "SunOS";
  platform_linux_distribution := None;
  distro_linux_distribution := None;
  environ := {[ "SSL_CERT_FILE" := "" ]};
  fs := ∅;
  ssl_module := SslDefaultVerifyPaths {|
    openssl_cafile_env := "SSL_CERT_FILE";
    cafile := None;
    openssl_cafile := None
  |}
|}.

(** A Linux host on which neither [platform] nor [distro] provides
    [linux_distribution]; [marker] says whether /etc/arch-release is
    there. *)
Definition no_distro_host (marker : bool) : Host := {|
  str_lower := AsciiText.lower;
  str_split := AsciiText.split;
  platform_system := "Linux";
  platform_linux_distribution := None;
  distro_linux_distribution := None;
  environ := ∅;
  fs := if marker then {[ ARCH_RELEASE := RegFile ]} else ∅;
  ssl_module := SslNoDefaultVerifyPaths
|}.

(** A Linux host with the Arch marker and a given distribution name
    reported by [distro]. *)
Definition arch_host (distro_name : string) : Host := {|
  str_lower := AsciiText.lower;
  str_split := AsciiText.split;
  platform_system := "Linux";
  platform_linux_distribution := None;
  distro_linux_distribution := Some distro_name;
  environ := ∅;
  fs := {[ ARCH_RELEASE := RegFile ]};
  ssl_module := SslNoDefaultVerifyPaths
|}.

(** A Linux host without the marker whose facility reports no name. *)
Definition unnamed_linux_host : Host := {|
  str_lower := AsciiText.lower;
  str_split := AsciiText.split;
  platform_system := "Linux";
  platform_linux_distribution := Some "";
  distro_linux_distribution := None;
  environ := ∅;
  fs := ∅;
  ssl_module := SslNoDefaultVerifyPaths
|}.

(** A FreeBSD host without ssl introspection; /etc/hosts is a regular
    file, /etc/ssl is a directory and /etc/certs a link to it. *)
Definition freebsd_host : Host := {|
  str_lower := AsciiText.lower;
  str_split := AsciiText.split;
  platform_system := "FreeBSD";
  platform_linux_distribution := None;
  distro_linux_distribution := None;
  environ := ∅;
  fs := {[ "/etc/hosts" := RegFile; "/etc/ssl" := Dir;
           "/etc/certs" := Symlink "/etc/ssl" ]};
  ssl_module := SslNoDefaultVerifyPaths
|}.

(** The FreeBSD host on an interpreter built without the ssl module. *)
Definition freebsd_no_ssl_host : Host := {|
  str_lower := AsciiText.lower;
  str_split := AsciiText.split;
  platform_system := "FreeBSD";
  platform_linux_distribution := None;
  distro_linux_distribution := None;
  environ := ∅;
  fs := {[ "/etc/hosts" := RegFile ]};
  ssl_module := SslMissing
|}.

(** The Ubuntu host with SSL_CERT_FILE set. *)
Definition ubuntu_env_host : Host := {|
  str_lower := AsciiText.lower;
  str_split := AsciiText.split;
  platform_system := "Linux";
  platform_linux_distribution := None;
  distro_linux_distribution := Some "Ubuntu 22.04";
  environ := {[ "SSL_CERT_FILE" := "/tmp/ca.pem" ]};
  fs := {[ "/etc/ssl/certs/ca-certificates.crt" := RegFile ]};
  ssl_module := SslDefaultVerifyPaths ubuntu_verify_paths
|}.

(** A dictionary with a data-entry defect after a good entry. *)
Definition defective_table : gmap string (list pyobj) :=
  {[ "freebsd" := [PStr "/etc/hosts"; PInt 42] ]}.

(** A dictionary with a data-entry defect in front. *)
Definition defective_table_front : gmap string (list pyobj) :=
  {[ "freebsd" := [PStr "/nonexistent"; PInt 42; PStr "/etc/hosts"] ]}.

(** The candidate list of the specification's example. *)
Definition probe_table : gmap string (list pyobj) :=
  {[ "freebsd" := [PStr "/nonexistent/a"; PStr "/etc/hosts";
                   PStr "/nonexistent/b"] ]}.

(** A dictionary whose entry is a link to a directory. *)
Definition link_table : gmap string (list pyobj) :=
  {[ "freebsd" := [PStr "/etc/ssl"; PStr "/etc/certs"] ]}.

(** * Properties *)

Example get_os_name_ubuntu : get_os_name ubuntu_host = Ok "linux-ubuntu".
Proof. vm_compute. reflexivity. Qed.

Example searchpath_ubuntu :
  (get_os_sslcertfile_searchpath ubuntu_host __DEF_OS_LOCATIONS).1 =
  Ok (Some [PStr "/etc/ssl/certs/ca-certificates.crt";
            PStr "/usr/lib/ssl/cert.pem"; PStr "/usr/lib/ssl/cert.pem"]).
Proof. vm_compute. reflexivity. Qed.

Example sslcertfile_ubuntu :
  (get_os_sslcertfile ubuntu_host __DEF_OS_LOCATIONS).1 =
  Ok (Some "/etc/ssl/certs/ca-certificates.crt").
Proof. vm_compute. reflexivity. Qed.

(** ** How the resolver runs *)

Section Run.
Context (h : Host).
Implicit Types (t : gmap string (list pyobj)) (k : string).

Lemma iadd_alias k v t :
  iadd_if_not_none (Alias k) v t =
  (Ok (Alias k), alter (λ l, l ++ opt_list v) k t).
Proof.
  destruct v as [s|]; simpl; [done|].
  unfold mret, M_ret. f_equal. symmetry. apply alter_id.
  intros x _. apply app_nil_r.
Qed.

Lemma iadd_local l v t :
  iadd_if_not_none (Local l) v t = (Ok (Local (l ++ opt_list v)), t).
Proof.
  destruct v as [s|]; simpl; [done|].
  unfold mret, M_ret. by rewrite app_nil_r.
Qed.

Lemma finally_return_run (r : lref) (pending : option exn) t :
  finally_return r pending t =
  (finally_value
     (match r with Alias k => default [] (t !! k) | Local l => l end) pending,
   t).
Proof.
  unfold finally_return, mbind, M_bind, deref.
  destruct r as [k|l]; simpl.
  - by destruct (default [] (t !! k)), pending.
  - by destruct l, pending.
Qed.

(** One call: the value returned and the dictionary left behind. *)
Lemma searchpath_run_gen t os :
  get_os_name h = Ok os →
  get_os_sslcertfile_searchpath h t =
  (finally_value (default [] (t !! os) ++ dynamic_paths h)
                 (if ssl_importable h then None else Some ImportError),
   alter (λ l, l ++ dynamic_paths h) os t).
Proof.
  intros Hos.
  unfold get_os_sslcertfile_searchpath, dynamic_paths,
    ssl_get_default_verify_paths, ssl_importable.
  unfold mbind at 1 2, M_bind at 1 2, lift, dict_get. rewrite Hos.
  destruct (t !! os) as [st|] eqn:Hst; simpl.
  - destruct (ssl_module h) as [| |vp].
    + rewrite finally_return_run, Hst, app_nil_r. simpl.
      f_equal. symmetry. apply alter_id. intros x _. apply app_nil_r.
    + rewrite finally_return_run, Hst, app_nil_r. simpl.
      f_equal. symmetry. apply alter_id. intros x _. apply app_nil_r.
    + unfold mbind, M_bind.
      rewrite iadd_alias, iadd_alias, iadd_alias, finally_return_run.
      rewrite !alter_alter_eq.
      rewrite lookup_alter_eq, Hst. simpl.
      f_equal; [by rewrite <-!app_assoc|].
      apply alter_ext. intros x _. simpl. by rewrite <-!app_assoc.
  - assert (Hid : ∀ f : list pyobj → list pyobj, alter f os t = t).
    { intros f. apply alter_id. intros x Hx. congruence. }
    rewrite Hid.
    destruct (ssl_module h) as [| |vp].
    + by rewrite finally_return_run.
    + by rewrite finally_return_run.
    + unfold mbind, M_bind.
      rewrite iadd_local, iadd_local, iadd_local, finally_return_run.
      by rewrite <-!app_assoc.
Qed.

(** The same when [import ssl] succeeds. *)
Lemma searchpath_run t os :
  get_os_name h = Ok os →
  ssl_importable h = true →
  get_os_sslcertfile_searchpath h t =
  (Ok (none_if_empty (default [] (t !! os) ++ dynamic_paths h)),
   alter (λ l, l ++ dynamic_paths h) os t).
Proof.
  intros Hos Himp. rewrite (searchpath_run_gen t os Hos), Himp.
  by destruct (default [] (t !! os) ++ dynamic_paths h).
Qed.

(** Without the ssl module nothing is appended, and a list that is not
    empty is never returned: the import error takes its place. *)
Lemma searchpath_run_missing t os :
  get_os_name h = Ok os →
  ssl_importable h = false →
  get_os_sslcertfile_searchpath h t =
  (finally_value (default [] (t !! os)) (Some ImportError), t).
Proof.
  intros Hos Himp. rewrite (searchpath_run_gen t os Hos), Himp.
  assert (Hdyn : dynamic_paths h = []).
  { unfold dynamic_paths, ssl_get_default_verify_paths.
    unfold ssl_importable in Himp. by destruct (ssl_module h). }
  rewrite Hdyn, app_nil_r. f_equal. apply alter_id. intros x _.
  apply app_nil_r.
Qed.

(** The dictionary a call leaves behind, in every case. *)
Lemma searchpath_table t os :
  get_os_name h = Ok os →
  (get_os_sslcertfile_searchpath h t).2 =
  alter (λ l, l ++ dynamic_paths h) os t.
Proof. intros Hos. by rewrite (searchpath_run_gen t os Hos). Qed.

Lemma ssl_verify_paths_importable vp :
  ssl_get_default_verify_paths h = Some vp → ssl_importable h = true.
Proof.
  unfold ssl_get_default_verify_paths, ssl_importable.
  by destruct (ssl_module h).
Qed.

Lemma searchpath_raise t e :
  get_os_name h = Raise e →
  get_os_sslcertfile_searchpath h t = (Raise e, t).
Proof.
  intros Hos. unfold get_os_sslcertfile_searchpath.
  unfold mbind, M_bind, lift. by rewrite Hos.
Qed.

End Run.

(** ** How the prober runs *)

Section Probe.
Context (h : Host).

Lemma sslcertfile_via_searchpath t :
  get_os_sslcertfile h t =
  match get_os_sslcertfile_searchpath h t with
  | (Ok None, t') => (Ok None, t')
  | (Ok (Some l), t') => (probe h l, t')
  | (Raise e, t') => (Raise e, t')
  end.
Proof.
  unfold get_os_sslcertfile, mbind, M_bind.
  by destruct (get_os_sslcertfile_searchpath h t) as [[[l|]|e] t'].
Qed.

(** A path returned by the prober is returned by the loop, run on the
    list the resolver returned. *)
Lemma sslcertfile_probe t p :
  (get_os_sslcertfile h t).1 = Ok (Some p) →
  ∃ l, (get_os_sslcertfile_searchpath h t).1 = Ok (Some l) ∧
       probe h l = Ok (Some p).
Proof.
  rewrite sslcertfile_via_searchpath.
  destruct (get_os_sslcertfile_searchpath h t) as [[[l|]|e] t'];
    simpl; try discriminate.
  eauto.
Qed.

(** A returned path sits at the first index whose entry passes the
    test; everything before it is a string that fails the test. *)
Lemma probe_Some (l : list pyobj) p :
  probe h l = Ok (Some p) →
  ∃ i, l !! i = Some (PStr p) ∧ usable h p = true ∧
       ∀ j v, j < i → l !! j = Some v →
              ∃ s, v = PStr s ∧ usable h s = false.
Proof.
  induction l as [|x l IH]; simpl; [discriminate|].
  destruct x as [s| |z]; try discriminate.
  destruct (usable h s) eqn:Hs.
  - intros [= ->]. exists 0. split_and!; [done|done|]. intros j v Hj. lia.
  - intros Hp. destruct (IH Hp) as (i & Hi & Hu & Hbefore).
    exists (S i). split_and!; [done|done|].
    intros [|j] v Hj Hv; simpl in Hv.
    + injection Hv as <-. eauto.
    + apply (Hbefore j); [lia|done].
Qed.

(** A non-string entry reached by the loop trips the assertion. *)
Lemma probe_assert (pre post : list pyobj) v :
  isinstance_str v = false →
  Forall (λ x, ∃ s, x = PStr s ∧ usable h s = false) pre →
  probe h (pre ++ v :: post) = Raise AssertionError.
Proof.
  intros Hv Hpre. induction Hpre as [|x pre (s & -> & Hs) _ IH]; simpl.
  - by destruct v.
  - by rewrite Hs.
Qed.

(** Dropping the occurrences of a string that fails the test does not
    change the outcome of the loop. *)
Lemma probe_filter_unusable s (l : list pyobj) :
  usable h s = false →
  probe h (filter (λ y, y ≠ PStr s) l) = probe h l.
Proof.
  intros Hs. induction l as [|y l IH]; [done|].
  rewrite filter_cons. case_decide as Hy.
  - simpl. destruct y as [s'| |z]; try done.
    by rewrite IH.
  - subst y. simpl. by rewrite Hs.
Qed.

Lemma probe_dedup_first (l : list pyobj) :
  probe h (dedup_first l) = probe h l.
Proof.
  induction l as [|x l IH]; [done|]. simpl.
  destruct x as [s| |z]; try done.
  destruct (usable h s) eqn:Hs; [done|].
  by rewrite probe_filter_unusable.
Qed.

Lemma follow_lstat n p :
  OsPath.follow h n p = Some RegFile →
  OsPath.lstat h p = Some RegFile ∨
  ∃ tg, OsPath.lstat h p = Some (Symlink tg).
Proof.
  unfold OsPath.lstat.
  destruct n; simpl; destruct (fs h !! p) as [[| |tg|]|]; eauto; discriminate.
Qed.

(** What [lstat] reports at a path that passes the test. *)
Lemma usable_lstat p :
  usable h p = true →
  OsPath.lstat h p = Some RegFile ∨
  ∃ tg, OsPath.lstat h p = Some (Symlink tg).
Proof.
  unfold usable. intros [_ [Hf|Hl]%orb_true_iff]%andb_true_iff.
  - unfold OsPath.isfile, OsPath.stat in Hf.
    destruct (OsPath.follow h OsPath.SYMLOOP_MAX p) as [[]|] eqn:E;
      try discriminate.
    by apply follow_lstat in E.
  - unfold OsPath.islink in Hl.
    destruct (OsPath.lstat h p) as [[| |tg|]|]; try discriminate. eauto.
Qed.

End Probe.

(** * The claims *)

(** ** C1: the dictionary across calls *)

(** The entries of the other OS identities are never touched. *)
Lemma searchpath_frame h t os k :
  get_os_name h = Ok os → k ≠ os →
  (get_os_sslcertfile_searchpath h t).2 !! k = t !! k.
Proof.
  intros Hos Hk. rewrite (searchpath_table h t os Hos).
  by rewrite lookup_alter_ne.
Qed.

(** The dictionary is left as it was when the OS identity has no entry
    or when the introspection contributes nothing. *)
Lemma searchpath_table_unchanged h t os :
  get_os_name h = Ok os →
  t !! os = None ∨ dynamic_paths h = [] →
  (get_os_sslcertfile_searchpath h t).2 = t.
Proof.
  intros Hos Hcase. rewrite (searchpath_table h t os Hos).
  apply alter_id. intros x Hx. destruct Hcase as [Hnone| ->].
  - congruence.
  - apply app_nil_r.
Qed.

(** C1 (evaluation at the failing input).  On an Ubuntu host whose ssl
    library reports a default cafile, the first call extends the list
    stored under "linux-ubuntu" in place, so the dictionary after the call
    differs from the dictionary before it, and a second call with the
    same host returns a longer list than the first. *)
Theorem searchpath_mutates_table :
  let r1 := get_os_sslcertfile_searchpath ubuntu_host __DEF_OS_LOCATIONS in
  let r2 := get_os_sslcertfile_searchpath ubuntu_host r1.2 in
  __DEF_OS_LOCATIONS !! "linux-ubuntu" = Some [ca_certificates] ∧
  r1.1 = Ok (Some [ca_certificates; ssl_cert_pem; ssl_cert_pem]) ∧
  r1.2 !! "linux-ubuntu" =
    Some [ca_certificates; ssl_cert_pem; ssl_cert_pem] ∧
  r1.2 ≠ __DEF_OS_LOCATIONS ∧
  r2.1 = Ok (Some [ca_certificates; ssl_cert_pem; ssl_cert_pem;
                   ssl_cert_pem; ssl_cert_pem]).
Proof.
  assert (Hos : get_os_name ubuntu_host = Ok "linux-ubuntu")
    by (vm_compute; reflexivity).
  assert (Hdyn : dynamic_paths ubuntu_host = [ssl_cert_pem; ssl_cert_pem])
    by reflexivity.
  assert (H0 : __DEF_OS_LOCATIONS !! "linux-ubuntu" = Some [ca_certificates])
    by (vm_compute; reflexivity).
  intros r1 r2. subst r2 r1.
  rewrite (searchpath_run _ _ _ Hos eq_refl). simpl.
  rewrite (searchpath_run _ _ _ Hos eq_refl). simpl.
  rewrite !lookup_alter_eq, H0, Hdyn. simpl.
  split_and!; try done.
  all: intros Heq; apply (f_equal (λ m, m !! "linux-ubuntu")) in Heq.
  all: rewrite lookup_alter_eq, H0 in Heq; discriminate.
Qed.

(** ** C2: static entries first, then the dynamic paths in fixed order *)

(** On a call that finds the entry [st] of the OS identity in the
    dictionary, with the ssl module importable, the list returned is
    [st] followed by the path named by the environment variable, the
    resolved cafile and the hardcoded cafile, in this order, each one
    present exactly when its source is not None.  For the dictionary as
    built this is what C2 asks of a first call. *)
Lemma searchpath_static_then_dynamic h t os st :
  get_os_name h = Ok os →
  ssl_importable h = true →
  t !! os = Some st →
  st ≠ [] →
  (get_os_sslcertfile_searchpath h t).1 =
  Ok (Some (st ++
            match ssl_get_default_verify_paths h with
            | Some vp =>
                opt_list (os_getenv h (openssl_cafile_env vp)) ++
                opt_list (cafile vp) ++
                opt_list (openssl_cafile vp)
            | None => []
            end)).
Proof.
  intros Hos Himp Hst Hne. rewrite (searchpath_run h t os Hos Himp), Hst.
  simpl. fold (dynamic_paths h). destruct st; [done|]. done.
Qed.

(** C2 (evaluation at the failing input).  A first call on the Ubuntu
    host with SSL_CERT_FILE set, then a second call with the variable
    unset: the list the second call returns is not the static entries
    followed by its dynamic paths.  Between the two sit the paths the
    first call appended to the stored list, among them the path of the
    variable, which is no longer set. *)
Theorem searchpath_second_call_stale :
  let r1 := get_os_sslcertfile_searchpath ubuntu_env_host __DEF_OS_LOCATIONS in
  let r2 := get_os_sslcertfile_searchpath ubuntu_host r1.2 in
  __DEF_OS_LOCATIONS !! "linux-ubuntu" = Some [ca_certificates] ∧
  os_getenv ubuntu_host "SSL_CERT_FILE" = None ∧
  dynamic_paths ubuntu_host = [ssl_cert_pem; ssl_cert_pem] ∧
  r2.1 = Ok (Some [ca_certificates; PStr "/tmp/ca.pem"; ssl_cert_pem;
                   ssl_cert_pem; ssl_cert_pem; ssl_cert_pem]) ∧
  r2.1 ≠ Ok (Some ([ca_certificates] ++ dynamic_paths ubuntu_host)).
Proof.
  assert (Hos1 : get_os_name ubuntu_env_host = Ok "linux-ubuntu")
    by (vm_compute; reflexivity).
  assert (Hos2 : get_os_name ubuntu_host = Ok "linux-ubuntu")
    by (vm_compute; reflexivity).
  assert (Hdyn1 : dynamic_paths ubuntu_env_host =
                  [PStr "/tmp/ca.pem"; ssl_cert_pem; ssl_cert_pem])
    by (vm_compute; reflexivity).
  assert (Hdyn2 : dynamic_paths ubuntu_host = [ssl_cert_pem; ssl_cert_pem])
    by reflexivity.
  assert (H0 : __DEF_OS_LOCATIONS !! "linux-ubuntu" = Some [ca_certificates])
    by (vm_compute; reflexivity).
  intros r1 r2. subst r2 r1.
  rewrite (searchpath_run _ _ _ Hos1 eq_refl). simpl.
  rewrite (searchpath_run _ _ _ Hos2 eq_refl). simpl.
  rewrite !lookup_alter_eq, H0, Hdyn1, Hdyn2. simpl.
  split_and!; [done|vm_compute; reflexivity|done|done|discriminate].
Qed.

(** Entries only grow at the end, call after call. *)
Lemma searchpath_entry_grows h t k st :
  t !! k = Some st →
  ∃ ext, (get_os_sslcertfile_searchpath h t).2 !! k = Some (st ++ ext).
Proof.
  intros Hk. destruct (get_os_name h) as [os|e] eqn:Hos.
  - rewrite (searchpath_table h t os Hos).
    destruct (decide (os = k)) as [->|Hne].
    + rewrite lookup_alter_eq, Hk. simpl. eauto.
    + rewrite lookup_alter_ne by done. exists []. by rewrite app_nil_r.
  - rewrite (searchpath_raise h t e Hos). simpl.
    exists []. by rewrite app_nil_r.
Qed.

Lemma after_calls_entry_grows hs t k st :
  t !! k = Some st →
  ∃ ext, after_calls hs t !! k = Some (st ++ ext).
Proof.
  revert t st. induction hs as [|h hs IH]; intros t st Hk; simpl.
  - exists []. by rewrite app_nil_r.
  - destruct (searchpath_entry_grows h t k st Hk) as [ext1 H1].
    destruct (IH _ _ H1) as [ext2 H2].
    exists (ext1 ++ ext2). by rewrite app_assoc.
Qed.

(** After any earlier calls, the list returned still begins with the
    entries the dictionary had at first and ends with the dynamic paths
    of the present call; what earlier calls appended sits in between. *)
Lemma searchpath_after_calls hs h t0 os st0 :
  get_os_name h = Ok os →
  ssl_importable h = true →
  t0 !! os = Some st0 →
  st0 ≠ [] →
  ∃ ext, (get_os_sslcertfile_searchpath h (after_calls hs t0)).1 =
         Ok (Some (st0 ++ ext ++ dynamic_paths h)).
Proof.
  intros Hos Himp H0 Hne.
  destruct (after_calls_entry_grows hs t0 os st0 H0) as [ext Hext].
  exists ext. rewrite (searchpath_run h _ os Hos Himp), Hext. simpl.
  rewrite <-app_assoc. by destruct st0.
Qed.

(** ** C3: the path returned is the first candidate that passes the test *)

(** C3.  When [get_os_sslcertfile] returns a path, the search path of
    the same call is a list, the path is its entry at some index [i], it
    passes the existence test, and every entry before index [i] is a
    string that fails the test. *)
Theorem sslcertfile_first_usable h t p :
  (get_os_sslcertfile h t).1 = Ok (Some p) →
  ∃ (location : list pyobj) (i : nat),
    (get_os_sslcertfile_searchpath h t).1 = Ok (Some location) ∧
    location !! i = Some (PStr p) ∧
    usable h p = true ∧
    ∀ j v, j < i → location !! j = Some v →
           ∃ s, v = PStr s ∧ usable h s = false.
Proof.
  intros (l & Hl & Hp)%sslcertfile_probe.
  destruct (probe_Some h l p Hp) as (i & Hi & Hu & Hbefore).
  exists l, i. done.
Qed.

Lemma sslcertfile_first_usable_witness :
  ∃ (location : list pyobj) (i : nat),
    (get_os_sslcertfile_searchpath freebsd_host probe_table).1 =
      Ok (Some location) ∧
    location !! i = Some (PStr "/etc/hosts") ∧
    usable freebsd_host "/etc/hosts" = true ∧
    ∀ j v, j < i → location !! j = Some v →
           ∃ s, v = PStr s ∧ usable freebsd_host s = false.
Proof.
  apply (sslcertfile_first_usable freebsd_host probe_table "/etc/hosts").
  vm_compute; reflexivity.
Defined.

(** ** C4: a directory is never returned *)

(** C4.  A path returned by [get_os_sslcertfile] names a regular file or
    a symbolic link, hence never a directory, whatever the dictionary and
    the filesystem are. *)
Theorem sslcertfile_not_directory h t p :
  (get_os_sslcertfile h t).1 = Ok (Some p) →
  fs h !! p ≠ Some Dir ∧
  (fs h !! p = Some RegFile ∨ ∃ tg, fs h !! p = Some (Symlink tg)).
Proof.
  intros (l & _ & Hp)%sslcertfile_probe.
  destruct (probe_Some h l p Hp) as (i & _ & Hu & _).
  apply usable_lstat in Hu. unfold OsPath.lstat in Hu.
  split; [|done]. destruct Hu as [->|[tg ->]]; discriminate.
Qed.

Lemma sslcertfile_not_directory_witness :
  fs freebsd_host !! "/etc/hosts" ≠ Some Dir ∧
  (fs freebsd_host !! "/etc/hosts" = Some RegFile ∨
   ∃ tg, fs freebsd_host !! "/etc/hosts" = Some (Symlink tg)).
Proof.
  apply (sslcertfile_not_directory freebsd_host probe_table "/etc/hosts").
  vm_compute; reflexivity.
Defined.

(** The directory itself is skipped; a symbolic link whose target is a
    directory passes the test, being a link. *)
Example link_to_directory_is_returned :
  (get_os_sslcertfile freebsd_host link_table).1 = Ok (Some "/etc/certs").
Proof. vm_compute; reflexivity. Qed.

(** ** C5: the path named by the environment variable *)

(** C5 (counterexample).  With the variable set to the empty string, the
    empty string is appended: on a host whose OS has no entry and whose
    introspection has no cafile, the search path is the one-element list
    holding the empty string. *)
Lemma envvar_empty_is_appended :
  os_getenv empty_envvar_host "SSL_CERT_FILE" = Some "" ∧
  (get_os_sslcertfile_searchpath empty_envvar_host __DEF_OS_LOCATIONS).1 =
  Ok (Some [PStr ""]).
Proof. split; vm_compute; reflexivity. Qed.

(** C5 (amended).  When the introspection is available, the list returned
    is the static entries, then a part [e], then the cafile parts, where
    [e] is the one-element list holding the value of the variable when
    the variable is set, whatever the value, the empty string included,
    and is empty when the variable is unset. *)
Theorem envvar_path_appended_iff_set h t os vp :
  get_os_name h = Ok os →
  ssl_get_default_verify_paths h = Some vp →
  ∃ e : list pyobj,
    (get_os_sslcertfile_searchpath h t).1 =
    Ok (none_if_empty (default [] (t !! os) ++ e ++
                       opt_list (cafile vp) ++ opt_list (openssl_cafile vp))) ∧
    (∀ v, environ h !! openssl_cafile_env vp = Some v → e = [PStr v]) ∧
    (environ h !! openssl_cafile_env vp = None → e = []).
Proof.
  intros Hos Hvp.
  rewrite (searchpath_run h t os Hos (ssl_verify_paths_importable h vp Hvp)).
  simpl. unfold dynamic_paths. rewrite Hvp. unfold os_getenv.
  exists (opt_list (environ h !! openssl_cafile_env vp)).
  split; [done|]. split.
  - by intros v ->.
  - by intros ->.
Qed.

Lemma envvar_path_appended_iff_set_witness :
  ∃ e : list pyobj,
    (get_os_sslcertfile_searchpath empty_envvar_host __DEF_OS_LOCATIONS).1 =
    Ok (none_if_empty (default [] (__DEF_OS_LOCATIONS !! "sunos") ++ e ++
                       opt_list None ++ opt_list None)) ∧
    (∀ v, environ empty_envvar_host !! "SSL_CERT_FILE" = Some v →
          e = [PStr v]) ∧
    (environ empty_envvar_host !! "SSL_CERT_FILE" = None → e = []).
Proof.
  apply (envvar_path_appended_iff_set empty_envvar_host __DEF_OS_LOCATIONS
           "sunos" {| openssl_cafile_env := "SSL_CERT_FILE";
                      cafile := None; openssl_cafile := None |}).
  - vm_compute; reflexivity.
  - reflexivity.
Defined.

(** ** C6: failures of the distribution lookup *)

(** C6 (counterexample).  On a Linux host on which neither facility can
    be imported, the import error reaches the caller. *)
Lemma get_os_name_import_error :
  get_os_name (no_distro_host false) = Raise ImportError.
Proof. vm_compute; reflexivity. Qed.

(** Whatever the lookup of the distribution raises reaches the caller. *)
Lemma get_os_name_import_raises h e :
  PyStr.startswith (str_lower h (platform_system h)) "linux" = true →
  import_linux_distribution h = Raise e →
  get_os_name h = Raise e.
Proof. intros Hlinux Himp. unfold get_os_name. by rewrite Hlinux, Himp. Qed.

(** A name made of whitespace only has no first token. *)
Example get_os_name_blank_distro :
  get_os_name (arch_host " ") = Raise IndexError.
Proof. vm_compute; reflexivity. Qed.

(** C6 (amended).  On a Linux host on which a facility can be imported
    (the one of [platform], or else the one of [distro]) and reports the
    empty name, and without the Arch marker, the result is the lowercased
    system name, returned normally. *)
Theorem get_os_name_empty_distro h :
  PyStr.startswith (str_lower h (platform_system h)) "linux" = true →
  import_linux_distribution h = Ok "" →
  OsPath.exists_ h ARCH_RELEASE = false →
  get_os_name h = Ok (str_lower h (platform_system h)).
Proof.
  intros Hlinux Himp Harch. unfold get_os_name.
  rewrite Hlinux, Himp. simpl. by rewrite Harch.
Qed.

Lemma get_os_name_empty_distro_witness :
  get_os_name unnamed_linux_host =
  Ok (str_lower unnamed_linux_host (platform_system unnamed_linux_host)).
Proof.
  apply (get_os_name_empty_distro unnamed_linux_host).
  - vm_compute; reflexivity.
  - reflexivity.
  - vm_compute; reflexivity.
Defined.

(** ** C7: the assertion on the candidates *)

(** C7 (counterexample).  A list with a non-string entry behind a path
    that passes the test: the call returns that path normally and never
    looks at the malformed entry. *)
Lemma malformed_entry_after_match :
  (get_os_sslcertfile_searchpath freebsd_host defective_table).1 =
    Ok (Some [PStr "/etc/hosts"; PInt 42]) ∧
  (get_os_sslcertfile freebsd_host defective_table).1 =
    Ok (Some "/etc/hosts").
Proof. split; vm_compute; reflexivity. Qed.

(** The loop stops at the first entry that passes the test, whatever
    comes behind it. *)
Lemma probe_stops_at_first_match h (pre post : list pyobj) s :
  Forall (λ x, ∃ s', x = PStr s' ∧ usable h s' = false) pre →
  usable h s = true →
  probe h (pre ++ PStr s :: post) = Ok (Some s).
Proof.
  intros Hpre Hs. induction Hpre as [|x pre (s' & -> & Hs') _ IH]; simpl.
  - by rewrite Hs.
  - by rewrite Hs'.
Qed.

(** C7 (amended).  When the search path has a non-string entry and every
    entry in front of it is a string that fails the existence test, the
    call fails with the assertion error. *)
Theorem sslcertfile_assertion h t pre v post :
  (get_os_sslcertfile_searchpath h t).1 = Ok (Some (pre ++ v :: post)) →
  isinstance_str v = false →
  Forall (λ x, ∃ s, x = PStr s ∧ usable h s = false) pre →
  (get_os_sslcertfile h t).1 = Raise AssertionError.
Proof.
  intros Hl Hv Hpre. rewrite sslcertfile_via_searchpath.
  destruct (get_os_sslcertfile_searchpath h t) as [[[l|]|e] t'];
    simpl in *; try discriminate.
  injection Hl as ->. by apply probe_assert.
Qed.

Lemma sslcertfile_assertion_witness :
  (get_os_sslcertfile freebsd_host defective_table_front).1 =
  Raise AssertionError.
Proof.
  apply (sslcertfile_assertion freebsd_host defective_table_front
           [PStr "/nonexistent"] (PInt 42) [PStr "/etc/hosts"]).
  - vm_compute; reflexivity.
  - reflexivity.
  - repeat constructor. exists "/nonexistent". split; vm_compute; reflexivity.
Defined.

(** ** C8: an empty search path is reported as None *)

(** C8 (counterexample).  FreeBSD on an interpreter built without the
    ssl module: the combined list is the static entry, which is not
    empty, and the call does not return it; the import error of
    [import ssl], which the [try] statement does not catch, reaches the
    caller. *)
Lemma searchpath_nonempty_import_error :
  get_os_name freebsd_no_ssl_host = Ok "freebsd" ∧
  default [] (__DEF_OS_LOCATIONS !! "freebsd") ++
    dynamic_paths freebsd_no_ssl_host =
    [PStr "/usr/local/share/certs/ca-root-nss.crt"] ∧
  (get_os_sslcertfile_searchpath freebsd_no_ssl_host __DEF_OS_LOCATIONS).1 =
    Raise ImportError.
Proof. split_and!; vm_compute; reflexivity. Qed.

(** C8 (amended).  Let the combined list be the static entries of the OS
    identity (none when the identity is unknown) followed by the dynamic
    paths.  When it is empty the resolver returns None; when it is not
    empty and the ssl module can be imported the resolver returns it; an
    empty list is never returned. *)
Theorem searchpath_none_iff_empty h t os :
  get_os_name h = Ok os →
  let combined := default [] (t !! os) ++ dynamic_paths h in
  (combined = [] → (get_os_sslcertfile_searchpath h t).1 = Ok None) ∧
  (ssl_importable h = true → combined ≠ [] →
   (get_os_sslcertfile_searchpath h t).1 = Ok (Some combined)) ∧
  (get_os_sslcertfile_searchpath h t).1 ≠ Ok (Some []).
Proof.
  intros Hos combined. rewrite (searchpath_run_gen h t os Hos). simpl.
  fold combined. destruct combined; simpl; split_and!; try congruence.
  - intros ->. congruence.
  - by destruct (ssl_importable h).
Qed.

Lemma searchpath_none_iff_empty_witness :
  let combined :=
    default [] (__DEF_OS_LOCATIONS !! "freebsd") ++ dynamic_paths freebsd_host in
  (combined = [] →
   (get_os_sslcertfile_searchpath freebsd_host __DEF_OS_LOCATIONS).1 = Ok None) ∧
  (ssl_importable freebsd_host = true → combined ≠ [] →
   (get_os_sslcertfile_searchpath freebsd_host __DEF_OS_LOCATIONS).1 =
   Ok (Some combined)) ∧
  (get_os_sslcertfile_searchpath freebsd_host __DEF_OS_LOCATIONS).1 ≠
  Ok (Some []).
Proof.
  apply (searchpath_none_iff_empty freebsd_host __DEF_OS_LOCATIONS "freebsd").
  vm_compute; reflexivity.
Defined.

(** An unknown OS without introspection: no search path at all. *)
Example searchpath_unknown_os :
  (get_os_sslcertfile_searchpath freebsd_host ∅).1 = Ok None.
Proof. vm_compute; reflexivity. Qed.

(** On an interpreter without the ssl module the import error of line 78
    reaches the caller when the OS identity has entries, and is
    discarded by the [return None] of the [finally] block when it has
    none. *)
Example searchpath_without_ssl :
  (get_os_sslcertfile_searchpath freebsd_no_ssl_host __DEF_OS_LOCATIONS).1 =
    Raise ImportError ∧
  (get_os_sslcertfile_searchpath freebsd_no_ssl_host ∅).1 = Ok None.
Proof. split; vm_compute; reflexivity. Qed.

(** ** C9: the Arch marker *)

(** C9 (counterexample).  Linux, the marker is there, and no facility
    can be imported: the call raises before the marker is looked at. *)
Lemma arch_marker_import_error :
  PyStr.startswith
    (str_lower (no_distro_host true) (platform_system (no_distro_host true)))
    "linux" = true ∧
  OsPath.exists_ (no_distro_host true) ARCH_RELEASE = true ∧
  get_os_name (no_distro_host true) = Raise ImportError.
Proof. split_and!; vm_compute; reflexivity. Qed.

(** C9 (amended).  On Linux with the marker present, whenever a facility
    can be imported and the name it reports is empty or has a first
    token, the result is exactly "linux-arch". *)
Theorem get_os_name_arch h d :
  PyStr.startswith (str_lower h (platform_system h)) "linux" = true →
  OsPath.exists_ h ARCH_RELEASE = true →
  import_linux_distribution h = Ok d →
  d = "" ∨ str_split h d ≠ [] →
  get_os_name h = Ok "linux-arch".
Proof.
  intros Hlinux Harch Himp Hd. unfold get_os_name.
  rewrite Hlinux, Himp. simpl.
  destruct Hd as [->|Hd]; simpl.
  - by rewrite Harch.
  - destruct d as [|c d]; simpl; [by rewrite Harch|].
    destruct (str_split h (String c d)) as [|tok toks]; [done|].
    simpl. by rewrite Harch.
Qed.

Lemma get_os_name_arch_witness :
  get_os_name (arch_host "Manjaro Linux") = Ok "linux-arch".
Proof.
  apply (get_os_name_arch (arch_host "Manjaro Linux") "Manjaro Linux").
  - vm_compute; reflexivity.
  - vm_compute; reflexivity.
  - reflexivity.
  - right. vm_compute. discriminate.
Defined.

(** ** C10: no deduplication *)

(** C10.  When the resolved and the hardcoded cafile are the same path,
    or when a dynamic path is also a static entry of the OS identity, the
    list returned holds that path at least twice; and running the loop of
    the prober on the list with the later duplicates removed gives the
    same outcome as running it on the list. *)
Theorem searchpath_keeps_duplicates h t os vp p :
  get_os_name h = Ok os →
  ssl_get_default_verify_paths h = Some vp →
  (cafile vp = Some p ∧ openssl_cafile vp = Some p) ∨
  (PStr p ∈ default [] (t !! os) ∧ PStr p ∈ dynamic_paths h) →
  ∃ l, (get_os_sslcertfile_searchpath h t).1 = Ok (Some l) ∧
       2 ≤ count_occ pyobj_eq_dec l (PStr p) ∧
       probe h (dedup_first l) = probe h l.
Proof.
  intros Hos Hvp Hdup.
  rewrite (searchpath_run h t os Hos (ssl_verify_paths_importable h vp Hvp)).
  simpl.
  set (l := default [] (t !! os) ++ dynamic_paths h).
  assert (Hcount : 2 ≤ count_occ pyobj_eq_dec l (PStr p)).
  { subst l. rewrite count_occ_app. destruct Hdup as [[Hc Hh]|[Hst Hdyn]].
    - unfold dynamic_paths. rewrite Hvp, Hc, Hh. cbn [opt_list].
      rewrite !count_occ_app.
      rewrite !(count_occ_cons_eq pyobj_eq_dec _ (eq_refl (PStr p))). lia.
    - apply list_elem_of_In, (count_occ_In pyobj_eq_dec) in Hst, Hdyn. lia. }
  exists l. split_and!; [|done|apply probe_dedup_first].
  destruct l; [simpl in Hcount; lia|done].
Qed.

Lemma searchpath_keeps_duplicates_witness :
  ∃ l, (get_os_sslcertfile_searchpath ubuntu_host __DEF_OS_LOCATIONS).1 =
       Ok (Some l) ∧
       2 ≤ count_occ pyobj_eq_dec l (PStr "/usr/lib/ssl/cert.pem") ∧
       probe ubuntu_host (dedup_first l) = probe ubuntu_host l.
Proof.
  apply (searchpath_keeps_duplicates ubuntu_host __DEF_OS_LOCATIONS
           "linux-ubuntu" ubuntu_verify_paths "/usr/lib/ssl/cert.pem").
  - vm_compute; reflexivity.
  - reflexivity.
  - left. split; reflexivity.
Defined.

(** * Further properties of the module *)

(** ** Strings *)

Section Strings.
Implicit Types (s w : string) (c : ascii).

Lemma append_nil_r s : s +:+ "" = s.
Proof. induction s as [|c s IH]; [done|]. exact (f_equal (String c) IH). Qed.

Lemma append_assoc s1 s2 s3 : (s1 +:+ s2) +:+ s3 = s1 +:+ (s2 +:+ s3).
Proof. induction s1 as [|c s1 IH]; [done|]. exact (f_equal (String c) IH). Qed.

Lemma lower_ascii_idem c :
  AsciiText.lower_ascii (AsciiText.lower_ascii c) = AsciiText.lower_ascii c.
Proof. by destruct c as [[] [] [] [] [] [] [] []]. Qed.

Lemma lower_idem s : AsciiText.lower (AsciiText.lower s) = AsciiText.lower s.
Proof.
  induction s as [|c s IH]; simpl; [done|].
  by rewrite lower_ascii_idem, IH.
Qed.

Lemma lower_app s1 s2 :
  AsciiText.lower (s1 +:+ s2) = AsciiText.lower s1 +:+ AsciiText.lower s2.
Proof.
  induction s1 as [|c s1 IH]; [done|].
  exact (f_equal (String (AsciiText.lower_ascii c)) IH).
Qed.

Lemma lower_ascii_nonspace c :
  nonspace c = true → nonspace (AsciiText.lower_ascii c) = true.
Proof. by destruct c as [[] [] [] [] [] [] [] []]. Qed.

Lemma lower_nonspace s :
  all_ascii nonspace s = true → all_ascii nonspace (AsciiText.lower s) = true.
Proof.
  induction s as [|c s IH]; simpl; [done|].
  intros [Hc Hs]%andb_true_iff.
  by rewrite lower_ascii_nonspace, IH.
Qed.

Lemma lower_empty s : AsciiText.lower s = "" → s = "".
Proof. by destruct s. Qed.

Lemma prefix_app p s x :
  String.prefix p s = true → String.prefix p (s +:+ x) = true.
Proof.
  revert s. induction p as [|a p IH]; intros s.
  - intros _. by destruct (s +:+ x).
  - destruct s as [|b s]; simpl; [done|].
    destruct (ascii_dec a b); auto.
Qed.

(** A token being read is delivered, extended by the characters up to
    the next whitespace. *)
Lemma split_go_Some w s :
  ∃ w' rest toks,
    s = w' +:+ rest ∧
    all_ascii nonspace w' = true ∧
    (rest = "" ∨ ∃ c r, rest = String c r ∧ AsciiText.isspace c = true) ∧
    AsciiText.split_go (Some w) s = (w +:+ w') :: toks.
Proof.
  revert w. induction s as [|c s IH]; intros w; simpl.
  - exists "", "", []. split_and!; auto. by rewrite append_nil_r.
  - destruct (AsciiText.isspace c) eqn:Hc.
    + exists "", (String c s), (AsciiText.split_go None s).
      split_and!; eauto. by rewrite append_nil_r.
    + destruct (IH (w +:+ String c "")) as (w' & rest & toks & -> & Hw' & Hrest & Hgo).
      exists (String c w'), rest, toks. split_and!; [done| |done|].
      * simpl. unfold nonspace at 1. by rewrite Hc.
      * rewrite Hgo. by rewrite append_assoc.
Qed.

(** The first token of a string with a non-whitespace character: the
    first maximal run of non-whitespace characters. *)
Lemma split_first s :
  all_ascii AsciiText.isspace s = false →
  ∃ ws tok rest toks,
    s = ws +:+ tok +:+ rest ∧
    all_ascii AsciiText.isspace ws = true ∧
    tok ≠ "" ∧ all_ascii nonspace tok = true ∧
    (rest = "" ∨ ∃ c r, rest = String c r ∧ AsciiText.isspace c = true) ∧
    AsciiText.split s = tok :: toks.
Proof.
  unfold AsciiText.split. induction s as [|c s IH]; simpl; [done|].
  destruct (AsciiText.isspace c) eqn:Hc; simpl.
  - intros Hs. destruct (IH Hs) as (ws & tok & rest & toks & -> & ? & ? & ? & ? & ?).
    exists (String c ws), tok, rest, toks. simpl. rewrite Hc. done.
  - intros _.
    destruct (split_go_Some (String c "") s)
      as (w' & rest & toks & -> & Hw' & Hrest & Hgo).
    exists "", (String c w'), rest, toks. simpl.
    unfold nonspace at 1. rewrite Hc. done.
Qed.

(** A string of whitespace only has no token. *)
Lemma split_blank s :
  all_ascii AsciiText.isspace s = true → AsciiText.split s = [].
Proof.
  unfold AsciiText.split. induction s as [|c s IH]; simpl; [done|].
  intros [-> Hs]%andb_true_iff. auto.
Qed.

(** ASCII text stays ASCII text under the operations of the module. *)
Lemma is_ascii_app s1 s2 :
  is_ascii (s1 +:+ s2) = is_ascii s1 && is_ascii s2.
Proof.
  unfold is_ascii. induction s1 as [|c s1 IH]; simpl; [done|].
  by rewrite IH, andb_assoc.
Qed.

Lemma lower_ascii_is_ascii c :
  AsciiText.is_ascii_char c = true →
  AsciiText.is_ascii_char (AsciiText.lower_ascii c) = true.
Proof. by destruct c as [[] [] [] [] [] [] [] []]. Qed.

Lemma lower_is_ascii s :
  is_ascii s = true → is_ascii (AsciiText.lower s) = true.
Proof.
  unfold is_ascii. induction s as [|c s IH]; simpl; [done|].
  intros [Hc Hs]%andb_true_iff.
  by rewrite lower_ascii_is_ascii, IH.
Qed.

End Strings.

(** ** [get_os_name]: every way the function can end *)

Lemma get_os_name_cases h :
  let sys := str_lower h (platform_system h) in
  (PyStr.startswith sys "linux" = false ∧ get_os_name h = Ok sys) ∨
  (PyStr.startswith sys "linux" = true ∧
   ((∃ e, import_linux_distribution h = Raise e ∧ get_os_name h = Raise e) ∨
    (import_linux_distribution h = Ok "" ∧
     get_os_name h =
       Ok (if OsPath.exists_ h ARCH_RELEASE then "linux-arch" else sys)) ∨
    (∃ d, import_linux_distribution h = Ok d ∧ d ≠ "" ∧
          str_split h d = [] ∧ get_os_name h = Raise IndexError) ∨
    (∃ d tok toks,
        import_linux_distribution h = Ok d ∧ d ≠ "" ∧
        str_split h d = tok :: toks ∧
        get_os_name h =
          Ok (if OsPath.exists_ h ARCH_RELEASE then "linux-arch"
              else sys +:+ "-" +:+ str_lower h tok)))).
Proof.
  intros sys. unfold get_os_name. fold sys.
  destruct (PyStr.startswith sys "linux") eqn:Hlinux; [right|left; done].
  split; [done|].
  destruct (import_linux_distribution h) as [d|e]; simpl; [|left; eauto].
  right. destruct d as [|c d]; simpl; [left; done|right].
  destruct (str_split h (String c d)) as [|tok toks] eqn:Hsplit; simpl.
  - left. exists (String c d). done.
  - right. exists (String c d), tok, toks. done.
Qed.

Lemma split_nil_iff d :
  AsciiText.split d = [] ↔ all_ascii AsciiText.isspace d = true.
Proof.
  split; [|apply split_blank].
  destruct (all_ascii AsciiText.isspace d) eqn:Hd; [done|].
  destruct (split_first d Hd) as (? & ? & ? & ? & _ & _ & _ & _ & _ & ->).
  done.
Qed.

(** The tokens of ASCII text are ASCII text. *)
Lemma split_head_is_ascii d tok toks :
  is_ascii d = true → AsciiText.split d = tok :: toks → is_ascii tok = true.
Proof.
  intros Hd Hsplit.
  destruct (all_ascii AsciiText.isspace d) eqn:Hsp.
  - apply split_blank in Hsp. congruence.
  - destruct (split_first d Hsp)
      as (ws & tok' & rest & toks' & -> & _ & _ & _ & _ & Hsplit').
    rewrite Hsplit' in Hsplit. injection Hsplit as -> _.
    rewrite !is_ascii_app in Hd.
    by apply andb_true_iff in Hd as [_ [? _]%andb_true_iff].
Qed.

(** X1.  For ASCII names: when the system name and the distribution
    name are ASCII text, and the interpreter treats ASCII text as Python
    does, whatever [get_os_name] returns is all-lowercase ASCII text:
    lowercasing it again changes nothing. *)
Theorem get_os_name_lowercase h s :
  ascii_interpreter h →
  is_ascii (platform_system h) = true →
  (∀ d, import_linux_distribution h = Ok d → is_ascii d = true) →
  get_os_name h = Ok s →
  str_lower h s = s ∧ is_ascii s = true.
Proof.
  intros Hint Hsys Hdist.
  assert (Hlow : ∀ x, is_ascii x = true →
                      str_lower h (AsciiText.lower x) = AsciiText.lower x ∧
                      is_ascii (AsciiText.lower x) = true).
  { intros x Hx. pose proof (lower_is_ascii x Hx) as Hx'.
    split; [|done]. destruct (Hint _ Hx') as [-> _]. apply lower_idem. }
  destruct (Hint _ Hsys) as [Hsys' _].
  destruct (get_os_name_cases h)
    as [[_ ->]|[_ [(e & _ & ->)|[[_ ->]|[(d & _ & _ & _ & ->)
                                        |(d & tok & toks & Hi & _ & Hsp & ->)]]]]];
    try discriminate; intros [= <-].
  - rewrite Hsys'. by apply Hlow.
  - destruct (OsPath.exists_ h ARCH_RELEASE).
    + split; [|done]. by destruct (Hint "linux-arch" eq_refl) as [-> _].
    + rewrite Hsys'. by apply Hlow.
  - destruct (OsPath.exists_ h ARCH_RELEASE).
    + split; [|done]. by destruct (Hint "linux-arch" eq_refl) as [-> _].
    + pose proof (Hdist d Hi) as Hd.
      destruct (Hint d Hd) as [_ Hsplit]. rewrite Hsplit in Hsp.
      pose proof (split_head_is_ascii d tok toks Hd Hsp) as Htok.
      destruct (Hint tok Htok) as [-> _]. rewrite Hsys'.
      assert (Hres : is_ascii (AsciiText.lower (platform_system h) +:+ "-" +:+
                               AsciiText.lower tok) = true).
      { rewrite !is_ascii_app, !lower_is_ascii by done. done. }
      split; [|done]. destruct (Hint _ Hres) as [-> _].
      by rewrite !lower_app, !lower_idem.
Qed.

Lemma get_os_name_lowercase_witness :
  str_lower ubuntu_host "linux-ubuntu" = "linux-ubuntu" ∧
  is_ascii "linux-ubuntu" = true.
Proof.
  apply (get_os_name_lowercase ubuntu_host "linux-ubuntu").
  - intros s _. split; reflexivity.
  - reflexivity.
  - intros d [= <-]. reflexivity.
  - vm_compute; reflexivity.
Defined.

(** X2.  The only failures of [get_os_name] are, on Linux, the import
    error when neither [platform] nor [distro] provides
    [linux_distribution], and the index error when the reported name is
    not empty and [split()] finds no token in it. *)
Theorem get_os_name_raises_iff h e :
  get_os_name h = Raise e ↔
  PyStr.startswith (str_lower h (platform_system h)) "linux" = true ∧
  ((platform_linux_distribution h = None ∧
    distro_linux_distribution h = None ∧ e = ImportError) ∨
   (∃ d, import_linux_distribution h = Ok d ∧ d ≠ "" ∧
         str_split h d = [] ∧ e = IndexError)).
Proof.
  split.
  - destruct (get_os_name_cases h)
      as [[_ ->]|[Hl [(e' & Hi & ->)|[[_ ->]|[(d & Hi & Hd & Hs & ->)
                                        |(d & tok & toks & _ & _ & _ & ->)]]]]];
      try discriminate; intros [= <-]; (split; [done|]).
    + left. unfold import_linux_distribution in Hi.
      destruct (platform_linux_distribution h); [done|].
      destruct (distro_linux_distribution h); [done|].
      by injection Hi as <-.
    + right. by exists d.
  - intros [Hl [(Hp & Hd & ->)|(d & Hi & Hd & Hs & ->)]];
      unfold get_os_name; rewrite Hl.
    + unfold import_linux_distribution. by rewrite Hp, Hd.
    + rewrite Hi. simpl. destruct d as [|c d]; [done|]. simpl.
      by rewrite Hs.
Qed.

(** X3.  The result names a Linux system exactly when the platform
    does: it starts with "linux" if and only if the lowercased system
    name does, and off Linux it is the lowercased system name itself. *)
Theorem get_os_name_linux_prefix h s :
  get_os_name h = Ok s →
  PyStr.startswith s "linux" =
    PyStr.startswith (str_lower h (platform_system h)) "linux" ∧
  (PyStr.startswith (str_lower h (platform_system h)) "linux" = false →
   s = str_lower h (platform_system h)).
Proof.
  destruct (get_os_name_cases h)
    as [[Hl ->]|[Hl [(e & _ & ->)|[[_ ->]|[(d & _ & _ & _ & ->)
                                        |(d & tok & toks & _ & _ & _ & ->)]]]]];
    try discriminate; intros [= <-]; rewrite ?Hl; try done.
  - destruct (OsPath.exists_ h ARCH_RELEASE); done.
  - destruct (OsPath.exists_ h ARCH_RELEASE); [done|].
    split; [|done]. by apply prefix_app.
Qed.

Lemma get_os_name_linux_prefix_witness :
  PyStr.startswith "linux-ubuntu" "linux" =
    PyStr.startswith (str_lower ubuntu_host (platform_system ubuntu_host))
      "linux" ∧
  (PyStr.startswith (str_lower ubuntu_host (platform_system ubuntu_host))
     "linux" = false →
   "linux-ubuntu" = str_lower ubuntu_host (platform_system ubuntu_host)).
Proof.
  apply (get_os_name_linux_prefix ubuntu_host "linux-ubuntu").
  vm_compute; reflexivity.
Defined.

(** X4.  For ASCII names: on Linux without the Arch marker, when the
    reported name is ASCII text with a non-whitespace character and the
    interpreter treats ASCII text as Python does, the result is the
    lowercased system name, a dash, and the lowercased first token of the
    name; the token is the first maximal run of non-whitespace characters
    of the name, so the part behind the dash is not empty and holds no
    whitespace. *)
Theorem get_os_name_first_token h d :
  ascii_interpreter h →
  PyStr.startswith (str_lower h (platform_system h)) "linux" = true →
  import_linux_distribution h = Ok d →
  is_ascii d = true →
  all_ascii AsciiText.isspace d = false →
  OsPath.exists_ h ARCH_RELEASE = false →
  ∃ ws tok rest,
    d = ws +:+ tok +:+ rest ∧
    all_ascii AsciiText.isspace ws = true ∧
    tok ≠ "" ∧ all_ascii nonspace tok = true ∧
    (rest = "" ∨ ∃ c r, rest = String c r ∧ AsciiText.isspace c = true) ∧
    str_lower h tok ≠ "" ∧ all_ascii nonspace (str_lower h tok) = true ∧
    get_os_name h =
      Ok (str_lower h (platform_system h) +:+ "-" +:+ str_lower h tok).
Proof.
  intros Hint Hl Hi Hascii Hd Harch.
  destruct (split_first d Hd)
    as (ws & tok & rest & toks & Heq & Hws & Hne & Htok & Hrest & Hsplit).
  pose proof (split_head_is_ascii d tok toks Hascii Hsplit) as Htok'.
  destruct (Hint d Hascii) as [_ Hsplit'].
  destruct (Hint tok Htok') as [Hlow _].
  exists ws, tok, rest. split_and!; try done.
  - rewrite Hlow. intros Hempty. by apply lower_empty in Hempty.
  - rewrite Hlow. by apply lower_nonspace.
  - unfold get_os_name. rewrite Hl, Hi. simpl.
    destruct d as [|c d']; [done|]. simpl.
    rewrite Hsplit', Hsplit. simpl. by rewrite Harch.
Qed.

Lemma get_os_name_first_token_witness :
  ∃ ws tok rest,
    "Ubuntu 22.04" = ws +:+ tok +:+ rest ∧
    all_ascii AsciiText.isspace ws = true ∧
    tok ≠ "" ∧ all_ascii nonspace tok = true ∧
    (rest = "" ∨ ∃ c r, rest = String c r ∧ AsciiText.isspace c = true) ∧
    str_lower ubuntu_host tok ≠ "" ∧
    all_ascii nonspace (str_lower ubuntu_host tok) = true ∧
    get_os_name ubuntu_host =
      Ok (str_lower ubuntu_host (platform_system ubuntu_host) +:+ "-" +:+
          str_lower ubuntu_host tok).
Proof.
  apply (get_os_name_first_token ubuntu_host "Ubuntu 22.04").
  - intros s _. split; reflexivity.
  - vm_compute; reflexivity.
  - reflexivity.
  - reflexivity.
  - vm_compute; reflexivity.
  - vm_compute; reflexivity.
Defined.

(** ** The loop of the prober, in general *)

Section ProbeMore.
Context (h : Host).

Lemma probe_app (l l' : list pyobj) :
  probe h (l ++ l') =
  match probe h l with Ok None => probe h l' | r => r end.
Proof.
  induction l as [|x l IH]; simpl; [done|].
  destruct x as [s| |z]; try done.
  by destruct (usable h s).
Qed.

Lemma probe_None_iff (l : list pyobj) :
  probe h l = Ok None ↔ Forall (skipped h) l.
Proof.
  induction l as [|x l IH]; simpl.
  - split; [constructor|done].
  - destruct x as [s| |z].
    + destruct (usable h s) eqn:Hs.
      * split; [done|]. intros [(s' & [= <-] & Hs') _]%Forall_cons.
        congruence.
      * rewrite IH. split.
        -- intros Hl. constructor; [by exists s|done].
        -- by intros [_ Hl]%Forall_cons.
    + split; [done|]. by intros [(s' & ? & _) _]%Forall_cons.
    + split; [done|]. by intros [(s' & ? & _) _]%Forall_cons.
Qed.

Lemma probe_Raise (l : list pyobj) e :
  probe h l = Raise e →
  e = AssertionError ∧
  ∃ pre v post, l = pre ++ v :: post ∧ isinstance_str v = false ∧
                Forall (skipped h) pre.
Proof.
  induction l as [|x l IH]; simpl; [done|].
  destruct x as [s| |z].
  - destruct (usable h s) eqn:Hs; [done|].
    intros Hl. destruct (IH Hl) as (-> & pre & v & post & -> & Hv & Hpre).
    split; [done|]. exists (PStr s :: pre), v, post.
    split_and!; [done|done|]. constructor; [by exists s|done].
  - intros [= <-]. split; [done|]. by exists [], PNone, l.
  - intros [= <-]. split; [done|]. by exists [], (PInt z), l.
Qed.

Lemma probe_strings (l : list pyobj) e :
  Forall (λ v, isinstance_str v = true) l → probe h l ≠ Raise e.
Proof.
  intros Hl Hr.
  destruct (probe_Raise l e Hr) as (_ & pre & v & post & -> & Hv & _).
  apply Forall_app in Hl as [_ [Hv' _]%Forall_cons]. congruence.
Qed.

(** Candidates that occur already do not change the outcome when they
    are added at the end. *)
Lemma probe_app_subset (l l' : list pyobj) :
  l' ⊆ l → probe h (l ++ l') = probe h l.
Proof.
  intros Hsub. rewrite probe_app.
  destruct (probe h l) as [[p|]|e] eqn:Hl; try done.
  apply probe_None_iff. apply probe_None_iff in Hl.
  rewrite Forall_forall in Hl |- *. auto.
Qed.

Lemma sslcertfile_run t os :
  get_os_name h = Ok os →
  ssl_importable h = true →
  get_os_sslcertfile h t =
  (probe h (default [] (t !! os) ++ dynamic_paths h),
   alter (λ l, l ++ dynamic_paths h) os t).
Proof.
  intros Hos Himp.
  rewrite sslcertfile_via_searchpath, (searchpath_run h t os Hos Himp).
  by destruct (default [] (t !! os) ++ dynamic_paths h).
Qed.

Lemma sslcertfile_run_missing t os :
  get_os_name h = Ok os →
  ssl_importable h = false →
  get_os_sslcertfile h t =
  (match default [] (t !! os) with [] => Ok None | _ => Raise ImportError end,
   t).
Proof.
  intros Hos Himp.
  rewrite sslcertfile_via_searchpath, (searchpath_run_missing h t os Hos Himp).
  by destruct (default [] (t !! os)).
Qed.

Lemma dynamic_paths_missing :
  ssl_importable h = false → dynamic_paths h = [].
Proof.
  unfold dynamic_paths, ssl_get_default_verify_paths, ssl_importable.
  by destruct (ssl_module h).
Qed.

Lemma sslcertfile_raise t e :
  get_os_name h = Raise e → get_os_sslcertfile h t = (Raise e, t).
Proof.
  intros Hos. by rewrite sslcertfile_via_searchpath, (searchpath_raise h t e Hos).
Qed.

Lemma dynamic_paths_strings :
  Forall (λ v, isinstance_str v = true) (dynamic_paths h).
Proof.
  unfold dynamic_paths. destruct (ssl_get_default_verify_paths h) as [vp|];
    [|constructor].
  destruct (os_getenv h (openssl_cafile_env vp)), (cafile vp),
    (openssl_cafile vp); simpl; repeat constructor.
Qed.

Lemma dynamic_paths_length : length (dynamic_paths h) ≤ 3.
Proof.
  unfold dynamic_paths. destruct (ssl_get_default_verify_paths h) as [vp|];
    [|simpl; lia].
  destruct (os_getenv h (openssl_cafile_env vp)), (cafile vp),
    (openssl_cafile vp); simpl; lia.
Qed.

End ProbeMore.

(** ** What calls do to the dictionary *)

Lemma searchpath_lookup h t k :
  ∃ ext,
    (get_os_sslcertfile_searchpath h t).2 !! k = (λ l, l ++ ext) <$> t !! k ∧
    length ext ≤ 3 ∧
    Forall (λ v, isinstance_str v = true) ext ∧
    (get_os_name h ≠ Ok k → ext = []).
Proof.
  assert (Hid : t !! k = (λ l, l ++ []) <$> t !! k).
  { destruct (t !! k) as [l|]; simpl; [|done]. by rewrite app_nil_r. }
  destruct (get_os_name h) as [os|e] eqn:Hos.
  - rewrite (searchpath_table h t os Hos).
    destruct (decide (os = k)) as [->|Hne].
    + exists (dynamic_paths h). rewrite lookup_alter_eq.
      split_and!; [done|apply dynamic_paths_length
                  |apply dynamic_paths_strings|done].
    + exists []. rewrite lookup_alter_ne by done.
      split_and!; [done|simpl; lia|constructor|done].
  - rewrite (searchpath_raise h t e Hos). simpl.
    exists []. split_and!; [done|simpl; lia|constructor|done].
Qed.

Lemma after_calls_same h os n t :
  get_os_name h = Ok os →
  after_calls (replicate n h) t =
  alter (λ l, l ++ concat (replicate n (dynamic_paths h))) os t.
Proof.
  intros Hos. revert t. induction n as [|n IH]; intros t; simpl.
  - symmetry. apply alter_id. intros x _. apply app_nil_r.
  - rewrite (searchpath_table h t os Hos).
    rewrite IH, alter_alter_eq. apply alter_ext. intros x _. simpl.
    by rewrite app_assoc.
Qed.

Lemma after_calls_raise h e n t :
  get_os_name h = Raise e → after_calls (replicate n h) t = t.
Proof.
  intros Hos. induction n as [|n IH]; simpl; [done|].
  by rewrite (searchpath_raise h t e Hos).
Qed.

(** X5.  One call of the resolver neither adds nor removes a key of the
    dictionary, changes no entry but that of the current OS identity,
    and changes that one only by appending at most three strings. *)
Theorem searchpath_effect h t :
  dom (get_os_sslcertfile_searchpath h t).2 = dom t ∧
  ∀ k, ∃ ext,
    (get_os_sslcertfile_searchpath h t).2 !! k = (λ l, l ++ ext) <$> t !! k ∧
    length ext ≤ 3 ∧
    Forall (λ v, isinstance_str v = true) ext ∧
    (get_os_name h ≠ Ok k → ext = []).
Proof.
  split; [|apply searchpath_lookup].
  apply set_eq. intros k. rewrite !elem_of_dom.
  destruct (searchpath_lookup h t k) as (ext & -> & _).
  by rewrite fmap_is_Some.
Qed.

(** X6.  The call leaves the dictionary exactly as it was if and only if
    the OS identity has no entry or the introspection contributes no
    path. *)
Theorem searchpath_unchanged_iff h t os :
  get_os_name h = Ok os →
  (get_os_sslcertfile_searchpath h t).2 = t ↔
  t !! os = None ∨ dynamic_paths h = [].
Proof.
  intros Hos. rewrite (searchpath_table h t os Hos). split.
  - intros Heq. destruct (t !! os) as [st|] eqn:Hst; [right|by left].
    apply (f_equal (λ m, m !! os)) in Heq.
    rewrite lookup_alter_eq, Hst in Heq. simpl in Heq.
    injection Heq as Heq. apply (app_inv_head st). by rewrite app_nil_r.
  - intros Hcase. apply alter_id. intros x Hx.
    destruct Hcase as [Hnone| ->]; [congruence|apply app_nil_r].
Qed.

Lemma searchpath_unchanged_iff_witness :
  (get_os_sslcertfile_searchpath freebsd_host __DEF_OS_LOCATIONS).2 =
    __DEF_OS_LOCATIONS ↔
  __DEF_OS_LOCATIONS !! "freebsd" = None ∨ dynamic_paths freebsd_host = [].
Proof.
  apply (searchpath_unchanged_iff freebsd_host __DEF_OS_LOCATIONS "freebsd").
  vm_compute; reflexivity.
Defined.

(** X7.  With the host unchanged and an entry [st] for the OS identity,
    the call made after [n] earlier calls returns [st] followed by
    [n + 1] copies of the dynamic paths.  That is with the ssl module
    importable; without it nothing accumulates, and the call raises the
    import error, or returns None when [st] is empty. *)
Theorem searchpath_nth_call h t os st n :
  get_os_name h = Ok os →
  t !! os = Some st →
  (ssl_importable h = true →
   (get_os_sslcertfile_searchpath h (after_calls (replicate n h) t)).1 =
   Ok (none_if_empty (st ++ concat (replicate (S n) (dynamic_paths h))))) ∧
  (ssl_importable h = false →
   (get_os_sslcertfile_searchpath h (after_calls (replicate n h) t)).1 =
   match st with [] => Ok None | _ => Raise ImportError end).
Proof.
  intros Hos Hst. rewrite (after_calls_same h os n t Hos). split; intros Himp.
  - rewrite (searchpath_run h _ os Hos Himp).
    rewrite lookup_alter_eq, Hst. simpl. rewrite <-app_assoc.
    assert (Hcomm : concat (replicate n (dynamic_paths h)) ++ dynamic_paths h =
                    dynamic_paths h ++ concat (replicate n (dynamic_paths h))).
    { clear. induction n as [|n IH]; simpl; [by rewrite app_nil_r|].
      by rewrite <-app_assoc, IH. }
    by rewrite Hcomm.
  - rewrite (searchpath_run_missing h _ os Hos Himp).
    rewrite lookup_alter_eq, Hst. simpl.
    rewrite (dynamic_paths_missing h Himp).
    assert (Hnil : concat (replicate n ([] : list pyobj)) = []).
    { clear. induction n as [|n IH]; simpl; done. }
    rewrite Hnil, app_nil_r. by destruct st.
Qed.

Lemma searchpath_nth_call_witness :
  (ssl_importable ubuntu_host = true →
   (get_os_sslcertfile_searchpath ubuntu_host
      (after_calls (replicate 2 ubuntu_host) __DEF_OS_LOCATIONS)).1 =
   Ok (none_if_empty ([ca_certificates] ++
                      concat (replicate 3 (dynamic_paths ubuntu_host))))) ∧
  (ssl_importable ubuntu_host = false →
   (get_os_sslcertfile_searchpath ubuntu_host
      (after_calls (replicate 2 ubuntu_host) __DEF_OS_LOCATIONS)).1 =
   match [ca_certificates] with [] => Ok None | _ => Raise ImportError end).
Proof.
  apply (searchpath_nth_call ubuntu_host __DEF_OS_LOCATIONS "linux-ubuntu"
           [ca_certificates] 2).
  - vm_compute; reflexivity.
  - vm_compute; reflexivity.
Defined.

(** X8.  After any sequence of calls, on hosts that may differ from call
    to call, a key that was absent is still absent and an entry that was
    there is still there, extended at its end by strings only, at most
    three per call. *)
Theorem after_calls_effect hs t k :
  ∃ ext,
    after_calls hs t !! k = (λ l, l ++ ext) <$> t !! k ∧
    length ext ≤ 3 * length hs ∧
    Forall (λ v, isinstance_str v = true) ext.
Proof.
  revert t. induction hs as [|h hs IH]; intros t; simpl.
  - exists []. split_and!; [|simpl; lia|constructor].
    destruct (t !! k); simpl; [|done]. by rewrite app_nil_r.
  - destruct (searchpath_lookup h t k) as (ext1 & H1 & Hlen1 & Hstr1 & _).
    destruct (IH (get_os_sslcertfile_searchpath h t).2)
      as (ext2 & H2 & Hlen2 & Hstr2).
    exists (ext1 ++ ext2). split_and!.
    + rewrite H2, H1. destruct (t !! k); simpl; [|done].
      by rewrite app_assoc.
    + rewrite length_app. simpl. lia.
    + by apply Forall_app.
Qed.

(** ** The prober on top of the resolver *)

Lemma concat_replicate_comm (d : list pyobj) n :
  concat (replicate n d) ++ d = d ++ concat (replicate n d).
Proof.
  induction n as [|n IH]; simpl; [by rewrite app_nil_r|].
  by rewrite <-app_assoc, IH.
Qed.

Lemma concat_replicate_nil n : concat (replicate n ([] : list pyobj)) = [].
Proof. induction n as [|n IH]; simpl; done. Qed.

Lemma concat_replicate_subset (d : list pyobj) n :
  concat (replicate n d) ⊆ d.
Proof.
  induction n as [|n IH]; simpl; [apply list_subseteq_nil|].
  intros x [Hx|Hx]%elem_of_app; auto.
Qed.

Lemma get_os_name_no_assertion h : get_os_name h ≠ Raise AssertionError.
Proof.
  destruct (get_os_name_cases h)
    as [[_ ->]|[_ [(e & Hi & ->)|[[_ ->]|[(d & _ & _ & _ & ->)
                                        |(d & tok & toks & _ & _ & _ & ->)]]]]];
    try discriminate.
  unfold import_linux_distribution in Hi.
  destruct (platform_linux_distribution h); [done|].
  destruct (distro_linux_distribution h); [done|].
  by injection Hi as <-.
Qed.

Lemma after_calls_strings hs (t : gmap string (list pyobj)) :
  map_Forall (λ _ l, Forall (λ v, isinstance_str v = true) l) t →
  map_Forall (λ _ l, Forall (λ v, isinstance_str v = true) l)
             (after_calls hs t).
Proof.
  revert t. induction hs as [|h hs IH]; intros t Ht; simpl; [done|].
  apply IH. intros k l Hl.
  destruct (searchpath_lookup h t k) as (ext & Hk & _ & Hext & _).
  rewrite Hl in Hk. destruct (t !! k) as [l0|] eqn:Hl0; [|done].
  injection Hk as ->. apply Forall_app. split; [|done]. by apply (Ht k).
Qed.

Lemma DEF_OS_LOCATIONS_entries os st :
  __DEF_OS_LOCATIONS !! os = Some st →
  st ≠ [] ∧ Forall (λ v, isinstance_str v = true) st.
Proof.
  intros Hst. apply elem_of_list_to_map_2 in Hst.
  repeat (apply elem_of_cons in Hst as [[= -> ->]|Hst];
          [split; [done|repeat constructor]|]).
  by apply elem_of_nil in Hst.
Qed.

(** X9.  The static entries of the OS identity decide first: when the
    loop finds a file among them, or trips on one of them, that is the
    outcome whatever the environment variable and the ssl library say;
    the dynamic paths are tried only when every static entry is skipped.
    That is with the ssl module importable; without it the loop is not
    reached unless there is no static entry, and the result is then None. *)
Theorem sslcertfile_static_first h t os :
  get_os_name h = Ok os →
  (ssl_importable h = true →
   (get_os_sslcertfile h t).1 =
   match probe h (default [] (t !! os)) with
   | Ok None => probe h (dynamic_paths h)
   | r => r
   end) ∧
  (ssl_importable h = false →
   (get_os_sslcertfile h t).1 =
   match default [] (t !! os) with [] => Ok None | _ => Raise ImportError end).
Proof.
  intros Hos. split; intros Himp.
  - rewrite (sslcertfile_run h t os Hos Himp). simpl. apply probe_app.
  - by rewrite (sslcertfile_run_missing h t os Hos Himp).
Qed.

Lemma sslcertfile_static_first_witness :
  (ssl_importable ubuntu_host = true →
   (get_os_sslcertfile ubuntu_host __DEF_OS_LOCATIONS).1 =
   match probe ubuntu_host (default [] (__DEF_OS_LOCATIONS !! "linux-ubuntu")) with
   | Ok None => probe ubuntu_host (dynamic_paths ubuntu_host)
   | r => r
   end) ∧
  (ssl_importable ubuntu_host = false →
   (get_os_sslcertfile ubuntu_host __DEF_OS_LOCATIONS).1 =
   match default [] (__DEF_OS_LOCATIONS !! "linux-ubuntu") with
   | [] => Ok None
   | _ => Raise ImportError
   end).
Proof.
  apply (sslcertfile_static_first ubuntu_host __DEF_OS_LOCATIONS "linux-ubuntu").
  vm_compute; reflexivity.
Defined.

(** X10.  The prober returns None exactly when every candidate, static
    and dynamic, is a string that fails the existence test and, should
    the ssl module be missing, there is no static candidate; with no
    candidate at all this is the case. *)
Theorem sslcertfile_none_iff h t os :
  get_os_name h = Ok os →
  (get_os_sslcertfile h t).1 = Ok None ↔
  Forall (skipped h) (default [] (t !! os) ++ dynamic_paths h) ∧
  (ssl_importable h = false → default [] (t !! os) = []).
Proof.
  intros Hos. destruct (ssl_importable h) eqn:Himp.
  - rewrite (sslcertfile_run h t os Hos Himp). simpl.
    rewrite probe_None_iff. split; [intros ?; split; [done|discriminate]|].
    by intros [? _].
  - rewrite (sslcertfile_run_missing h t os Hos Himp). simpl.
    rewrite (dynamic_paths_missing h Himp), app_nil_r.
    destruct (default [] (t !! os)) as [|x l]; split.
    + intros _. split; [constructor|done].
    + done.
    + discriminate.
    + intros [_ Hnil]. by specialize (Hnil eq_refl).
Qed.

Lemma sslcertfile_none_iff_witness :
  (get_os_sslcertfile freebsd_host ∅).1 = Ok None ↔
  Forall (skipped freebsd_host)
         (default [] ((∅ : gmap string (list pyobj)) !! "freebsd") ++
          dynamic_paths freebsd_host) ∧
  (ssl_importable freebsd_host = false →
   default [] ((∅ : gmap string (list pyobj)) !! "freebsd") = []).
Proof.
  apply (sslcertfile_none_iff freebsd_host ∅ "freebsd").
  vm_compute; reflexivity.
Defined.

(** X11.  When every entry of the dictionary holds strings only, as the
    built-in one does, the assertion of the prober never fails, on any
    host and after any sequence of earlier calls. *)
Theorem sslcertfile_no_assertion hs h (t : gmap string (list pyobj)) :
  map_Forall (λ _ l, Forall (λ v, isinstance_str v = true) l) t →
  (get_os_sslcertfile h (after_calls hs t)).1 ≠ Raise AssertionError.
Proof.
  intros Ht%(after_calls_strings hs).
  destruct (get_os_name h) as [os|e] eqn:Hos.
  - destruct (ssl_importable h) eqn:Himp.
    + rewrite (sslcertfile_run h _ os Hos Himp). simpl.
      apply probe_strings, Forall_app. split; [|apply dynamic_paths_strings].
      destruct (after_calls hs t !! os) as [l|] eqn:Hl; simpl; [|constructor].
      by apply (Ht os).
    + rewrite (sslcertfile_run_missing h _ os Hos Himp). simpl.
      by destruct (default [] (after_calls hs t !! os)).
  - rewrite (sslcertfile_raise h _ e Hos). simpl.
    intros [= ->]. by apply (get_os_name_no_assertion h).
Qed.

Lemma sslcertfile_no_assertion_witness :
  (get_os_sslcertfile ubuntu_host
     (after_calls [ubuntu_host; freebsd_host] __DEF_OS_LOCATIONS)).1 ≠
  Raise AssertionError.
Proof.
  apply (sslcertfile_no_assertion [ubuntu_host; freebsd_host] ubuntu_host
           __DEF_OS_LOCATIONS).
  intros os st Hst. apply (DEF_OS_LOCATIONS_entries os st Hst).
Defined.

(** X12.  With the host unchanged, the prober gives the same result on
    every call, although the dictionary grows: what earlier calls
    appended are copies of candidates that are in the list already. *)
Theorem sslcertfile_same_result h t n :
  (get_os_sslcertfile h (after_calls (replicate n h) t)).1 =
  (get_os_sslcertfile h t).1.
Proof.
  destruct (get_os_name h) as [os|e] eqn:Hos.
  - rewrite (after_calls_same h os n t Hos).
    destruct (ssl_importable h) eqn:Himp.
    + rewrite !(sslcertfile_run h _ os Hos Himp).
      simpl. rewrite lookup_alter_eq.
      destruct (t !! os) as [st|]; simpl; [|done].
      rewrite <-app_assoc, concat_replicate_comm, app_assoc.
      apply probe_app_subset.
      intros x Hx%concat_replicate_subset. apply elem_of_app. by right.
    + rewrite !(sslcertfile_run_missing h _ os Hos Himp).
      simpl. rewrite lookup_alter_eq.
      destruct (t !! os) as [st|]; simpl; [|done].
      by rewrite (dynamic_paths_missing h Himp), concat_replicate_nil,
        app_nil_r.
  - by rewrite (after_calls_raise h e n t Hos).
Qed.

(** X13.  A path returned by the prober resolves: following symbolic
    links from it ends at something that exists, so a dangling link and a
    loop of links are never returned. *)
Theorem sslcertfile_resolves h t p :
  (get_os_sslcertfile h t).1 = Ok (Some p) →
  is_Some (OsPath.stat h p).
Proof.
  intros (l & _ & Hp)%sslcertfile_probe.
  destruct (probe_Some h l p Hp) as (i & _ & Hu & _).
  unfold usable in Hu. apply andb_true_iff in Hu as [He _].
  unfold OsPath.exists_ in He.
  destruct (OsPath.stat h p); [eauto|done].
Qed.

Lemma sslcertfile_resolves_witness :
  is_Some (OsPath.stat freebsd_host "/etc/certs").
Proof.
  apply (sslcertfile_resolves freebsd_host link_table "/etc/certs").
  vm_compute; reflexivity.
Defined.

(** X14.  For an OS identity of the built-in dictionary the search path
    is never None, after any sequence of earlier calls: with the ssl
    module importable it begins with the built-in entries of the
    identity, which are not empty, and ends with the dynamic paths of the
    present call; without the module the call raises the import error. *)
Theorem searchpath_known_os hs h os :
  get_os_name h = Ok os →
  is_Some (__DEF_OS_LOCATIONS !! os) →
  ∃ st ext,
    __DEF_OS_LOCATIONS !! os = Some st ∧ st ≠ [] ∧
    (ssl_importable h = true →
     (get_os_sslcertfile_searchpath h (after_calls hs __DEF_OS_LOCATIONS)).1 =
     Ok (Some (st ++ ext ++ dynamic_paths h))) ∧
    (ssl_importable h = false →
     (get_os_sslcertfile_searchpath h (after_calls hs __DEF_OS_LOCATIONS)).1 =
     Raise ImportError).
Proof.
  intros Hos [st Hst].
  destruct (DEF_OS_LOCATIONS_entries os st Hst) as [Hne _].
  destruct (after_calls_entry_grows hs _ os st Hst) as [ext Hext].
  exists st, ext. split_and!; [done|done| |]; intros Himp.
  - rewrite (searchpath_run h _ os Hos Himp), Hext. simpl.
    rewrite <-app_assoc. by destruct st.
  - rewrite (searchpath_run_missing h _ os Hos Himp), Hext. simpl.
    by destruct st.
Qed.

Lemma searchpath_known_os_witness :
  ∃ st ext,
    __DEF_OS_LOCATIONS !! "linux-ubuntu" = Some st ∧ st ≠ [] ∧
    (ssl_importable ubuntu_host = true →
     (get_os_sslcertfile_searchpath ubuntu_host
        (after_calls [ubuntu_host] __DEF_OS_LOCATIONS)).1 =
     Ok (Some (st ++ ext ++ dynamic_paths ubuntu_host))) ∧
    (ssl_importable ubuntu_host = false →
     (get_os_sslcertfile_searchpath ubuntu_host
        (after_calls [ubuntu_host] __DEF_OS_LOCATIONS)).1 =
     Raise ImportError).
Proof.
  apply (searchpath_known_os [ubuntu_host] ubuntu_host "linux-ubuntu").
  - vm_compute; reflexivity.
  - exists [ca_certificates]. vm_compute; reflexivity.
Defined.

(** X15.  The resolver raises in two cases only: when [get_os_name]
    raises, with the same exception, and with the import error of
    [import ssl] when the ssl module is missing and the OS identity has a
    list that is not empty (on an empty list the [return None] of the
    [finally] block discards that error).  In both cases the dictionary
    is left as it was.  A missing [get_default_verify_paths] and an
    unknown OS identity are not errors. *)
Theorem searchpath_raises_iff h t e :
  ((get_os_sslcertfile_searchpath h t).1 = Raise e ↔
   get_os_name h = Raise e ∨
   (e = ImportError ∧ ssl_importable h = false ∧
    ∃ os, get_os_name h = Ok os ∧ default [] (t !! os) ≠ [])) ∧
  ((get_os_sslcertfile_searchpath h t).1 = Raise e →
   (get_os_sslcertfile_searchpath h t).2 = t).
Proof.
  destruct (get_os_name h) as [os|e'] eqn:Hos.
  - destruct (ssl_importable h) eqn:Himp.
    + rewrite (searchpath_run h t os Hos Himp). simpl.
      split; [split|]; [discriminate| |discriminate].
      intros [?|(_ & ? & _)]; discriminate.
    + rewrite (searchpath_run_missing h t os Hos Himp). simpl.
      split; [split|]; [| |done].
      * destruct (default [] (t !! os)) as [|x l] eqn:Hl; [discriminate|].
        intros [= <-]. right. split_and!; [done|done|].
        exists os. by rewrite Hl.
      * intros [?|(-> & _ & os' & [= <-] & Hne)]; [discriminate|].
        by destruct (default [] (t !! os)).
  - rewrite (searchpath_raise h t e' Hos). simpl.
    split; [split|]; [| |done].
    + intros [= ->]. by left.
    + intros [[= ->]|(_ & _ & os & ? & _)]; [done|discriminate].
Qed.

(** X16.  The prober fails in three ways only: with what [get_os_name]
    raises; with the import error of [import ssl] when the ssl module is
    missing and the OS identity has a list that is not empty; and, the
    module being there, with the assertion error when the candidate list
    has a non-string entry in front of which every entry is skipped. *)
Theorem sslcertfile_raises_iff h t e :
  (get_os_sslcertfile h t).1 = Raise e ↔
  get_os_name h = Raise e ∨
  (e = ImportError ∧ ssl_importable h = false ∧
   ∃ os, get_os_name h = Ok os ∧ default [] (t !! os) ≠ []) ∨
  (e = AssertionError ∧ ssl_importable h = true ∧
   ∃ os pre v post,
     get_os_name h = Ok os ∧
     default [] (t !! os) ++ dynamic_paths h = pre ++ v :: post ∧
     isinstance_str v = false ∧ Forall (skipped h) pre).
Proof.
  destruct (get_os_name h) as [os|e'] eqn:Hos.
  - destruct (ssl_importable h) eqn:Himp.
    + rewrite (sslcertfile_run h t os Hos Himp). simpl. split.
      * intros Hr. right. right.
        destruct (probe_Raise h _ e Hr)
          as (-> & pre & v & post & Hl & Hv & Hpre).
        split_and!; [done|done|]. by exists os, pre, v, post.
      * intros [?|[(_ & ? & _)
                  |(-> & _ & os' & pre & v & post & [= <-] & -> & Hv & Hpre)]];
          [discriminate|discriminate|].
        by apply probe_assert.
    + rewrite (sslcertfile_run_missing h t os Hos Himp). simpl. split.
      * destruct (default [] (t !! os)) as [|x l] eqn:Hl; [discriminate|].
        intros [= <-]. right. left. split_and!; [done|done|].
        exists os. by rewrite Hl.
      * intros [?|[(-> & _ & os' & [= <-] & Hne)|(_ & ? & _)]];
          [discriminate| |discriminate].
        by destruct (default [] (t !! os)).
  - rewrite (sslcertfile_raise h t e' Hos). simpl. split.
    + intros [= ->]. by left.
    + intros [[= ->]|[(_ & _ & os & ? & _)|(_ & _ & os & pre & v & post & ? & _)]];
        [done|discriminate|discriminate].
Qed.
